(** * Farm incident CLI: streaming tool-call extraction and idempotent
      work-order persistence

    A shallow embedding of [main_chat.py]: the event loop of
    [run_agent_stream_get_tool_args], the key derivation of
    [make_work_order_key] and the SQLite insert of [upsert_work_order]
    against the schema of [db_init]. *)

From Stdlib Require Import String Ascii List Bool Arith ZArith NArith Lia.
Import ListNotations.

Set Implicit Arguments.

(** ** Python text

    A Python [str] is a sequence of Unicode code points. *)

Module Text.

Definition codepoint := N.
Definition pystr := list codepoint.

(** The text of an ASCII literal of the source. *)
Definition txt (s : string) : pystr :=
  map N_of_ascii (list_ascii_of_string s).

Fixpoint eqb (s t : pystr) : bool :=
  match s, t with
  | [], [] => true
  | c :: s', d :: t' => N.eqb c d && eqb s' t'
  | _, _ => false
  end.

(** [str.isspace] on one code point: the code points CPython's
    [Py_UNICODE_ISSPACE] accepts. *)
Definition is_space (c : codepoint) : bool :=
  ((9 <=? c) && (c <=? 13) || (28 <=? c) && (c <=? 32)
   || (c =? 133) || (c =? 160) || (c =? 5760)
   || (8192 <=? c) && (c <=? 8202)
   || (c =? 8232) || (c =? 8233) || (c =? 8239) || (c =? 8287)
   || (c =? 12288))%N.

Fixpoint lstrip (s : pystr) : pystr :=
  match s with
  | c :: s' => if is_space c then lstrip s' else s
  | [] => []
  end.

Definition rstrip (s : pystr) : pystr := rev (lstrip (rev s)).

(** [s.strip()] *)
Definition strip (s : pystr) : pystr := rstrip (lstrip s).

(** The ASCII part of the case mapping: [A]..[Z] to [a]..[z]. *)
Definition ascii_lower (c : codepoint) : codepoint :=
  if ((65 <=? c) && (c <=? 90))%N then (c + 32)%N else c.

(** [sep.join(parts)] *)
Fixpoint join (sep : pystr) (parts : list pystr) : pystr :=
  match parts with
  | [] => []
  | [p] => p
  | p :: rest => p ++ sep ++ join sep rest
  end.

Definition is_surrogate (c : codepoint) : bool :=
  ((55296 <=? c) && (c <=? 57343))%N.

(** UTF-8 bytes of one code point; [None] where [str.encode] raises
    [UnicodeEncodeError] (a lone surrogate).  A number above [0x10FFFF]
    is no code point and no [str] holds one; it has no encoding either. *)
Definition utf8_encode_cp (c : codepoint) : option (list N) :=
  if (c <? 128)%N then Some [c]
  else if (c <? 2048)%N then
    Some [N.lor 192 (N.shiftr c 6); N.lor 128 (N.land c 63)]
  else if is_surrogate c then None
  else if (c <? 65536)%N then
    Some [N.lor 224 (N.shiftr c 12);
          N.lor 128 (N.land (N.shiftr c 6) 63);
          N.lor 128 (N.land c 63)]
  else if (c <? 1114112)%N then
    Some [N.lor 240 (N.shiftr c 18);
          N.lor 128 (N.land (N.shiftr c 12) 63);
          N.lor 128 (N.land (N.shiftr c 6) 63);
          N.lor 128 (N.land c 63)]
  else None.

(** [s.encode("utf-8")] *)
Fixpoint utf8_encode (s : pystr) : option (list N) :=
  match s with
  | [] => Some []
  | c :: s' =>
      match utf8_encode_cp c, utf8_encode s' with
      | Some b, Some bs => Some (b ++ bs)
      | _, _ => None
      end
  end.

(** Decimal digits of a natural number, as [str(int)] prints them. *)
Fixpoint decimal_pos (fuel : nat) (n : N) (acc : pystr) : pystr :=
  match fuel with
  | O => acc
  | S fuel' =>
      let acc' := (48 + n mod 10)%N :: acc in
      if (n <? 10)%N then acc' else decimal_pos fuel' (n / 10)%N acc'
  end.

Definition decimal (z : Z) : pystr :=
  let n := Z.abs_N z in
  let digits := decimal_pos (S (N.to_nat (N.log2 n))) n [] in
  if (z <? 0)%Z then 45%N :: digits else digits.

(** What CPython takes from the Unicode character database: the full
    case mapping behind [str.lower] and the printable test behind the
    [repr] of a [str].  The development holds for every database that
    agrees with the ASCII case mapping. *)
Class UnicodeData := {
  lower : pystr -> pystr;
  repr : pystr -> pystr;
  lower_ascii_case : forall s, lower (map ascii_lower s) = lower s
}.

End Text.

Import Text.

(** ** Python values as [json.loads] builds them *)

#[local] Unset Elimination Schemes.

Inductive json : Type :=
| JNull                                  (* None *)
| JBool (b : bool)
| JInt (z : Z)
| JFloat (shown : pystr)                 (* a float, by the text repr prints *)
| JStr (s : pystr)
| JList (items : list json)
| JDict (entries : list (pystr * json)). (* insertion-ordered *)

#[local] Set Elimination Schemes.

Definition dict := list (pystr * json).

(** Key lookup; [None] when the key is absent. *)
Fixpoint dict_lookup (d : dict) (k : pystr) : option json :=
  match d with
  | [] => None
  | (k', v) :: d' => if Text.eqb k' k then Some v else dict_lookup d' k
  end.

(** [d.get(k, default)] *)
Definition get_default (d : dict) (k : pystr) (default : json) : json :=
  match dict_lookup d k with
  | Some v => v
  | None => default
  end.

(** [d.get(k)] *)
Definition get (d : dict) (k : pystr) : json := get_default d k JNull.

(** [d[k] = v]: an existing key keeps its place, a new one goes last. *)
Fixpoint dict_set (d : dict) (k : pystr) (v : json) : dict :=
  match d with
  | [] => [(k, v)]
  | (k', v') :: d' =>
      if Text.eqb k' k then (k, v) :: d' else (k', v') :: dict_set d' k v
  end.

(** Truth value of an object, as [if x], [not x] and [x or y] test it. *)
Definition truthy (v : json) : bool :=
  match v with
  | JNull => false
  | JBool b => b
  | JInt z => negb (z =? 0)%Z
  | JFloat shown =>
      negb (Text.eqb shown (txt "0.0") || Text.eqb shown (txt "-0.0"))
  | JStr s => negb (Text.eqb s [])
  | JList items => match items with [] => false | _ => true end
  | JDict entries => match entries with [] => false | _ => true end
  end.

(** [x or y] *)
Definition py_or (x y : json) : json := if truthy x then x else y.

(** [x == "literal"] for a [str] literal: only an equal [str] is equal. *)
Definition is_str (v : json) (lit : pystr) : bool :=
  match v with
  | JStr s => Text.eqb s lit
  | _ => false
  end.

Inductive exn : Type :=
| HTTPError
| AttributeError
| TypeError
| RuntimeError (message : pystr)
| UnicodeEncodeError
| OverflowError
| ProgrammingError
| OperationalError
| ValueError
| RecursionError.

Inductive result (A : Type) : Type :=
| Return (a : A)
| Raise (e : exn).

Arguments Return {A} a.
Arguments Raise {A} e.

Definition bind {A B} (r : result A) (k : A -> result B) : result B :=
  match r with
  | Return a => k a
  | Raise e => Raise e
  end.

Notation "x <- r ;; k" := (bind r (fun x => k))
  (at level 61, r at next level, right associativity).

(** [for x in v]: the items a loop over [v] visits; a [dict] yields its
    keys, a [str] its characters, and a number, a bool or [None] is not
    iterable. *)
Definition iterate (v : json) : result (list json) :=
  match v with
  | JList items => Return items
  | JDict entries => Return (map (fun kv => JStr (fst kv)) entries)
  | JStr s => Return (map (fun c => JStr [c]) s)
  | JNull | JBool _ | JInt _ | JFloat _ => Raise TypeError
  end.

(** ** The run: [run_agent_stream_get_tool_args]

    The transport is the collaborator's: a run is given the response's
    status and the lines [iter_lines] yields, each with the outcome of
    decoding it. *)

(** What [json.loads] raises besides [JSONDecodeError]: the scanner
    refuses an integer of more digits than [int] converts from text, and
    runs out of stack on containers nested too deep. *)
Inductive loads_failure : Type :=
| IntegerTooLong           (* ValueError *)
| NestingTooDeep.          (* RecursionError *)

Definition raised (why : loads_failure) : exn :=
  match why with
  | IntegerTooLong => ValueError
  | NestingTooDeep => RecursionError
  end.

Inductive line : Type :=
| LineNone                 (* iter_lines yielded None *)
| LineBlank                (* nothing left after decode and strip *)
| LineNotJson              (* json.loads raised JSONDecodeError *)
| LineJson (obj : json)    (* json.loads returned obj *)
| LineUnread (why : loads_failure).
                           (* json.loads raised another exception *)

Record response : Type := {
  status_code : Z;
  iter_lines : list line
}.

(** [r.ok]: [raise_for_status] would not raise. *)
Definition ok (r : response) : bool :=
  negb ((400 <=? status_code r) && (status_code r <? 600))%Z.

(** The two locals the loop updates. *)
Record extractor : Type := {
  tool_name : json;        (* Optional[str], None at the start *)
  tool_args : dict
}.

Definition no_capture : extractor :=
  {| tool_name := JNull; tool_args := [] |}.

(** Body of [for tc in ...]. *)
Definition on_tool_call (tc : json) (st : extractor) : extractor :=
  match tc with
  | JDict e =>
      let name := get e (txt "name") in
      let args := get e (txt "args") in
      match args with
      | JDict a =>
          if truthy name then {| tool_name := name; tool_args := a |} else st
      | _ => st
      end
  | _ => st
  end.

Fixpoint for_tool_calls (tcs : list json) (st : extractor) : extractor :=
  match tcs with
  | [] => st
  | tc :: rest => for_tool_calls rest (on_tool_call tc st)
  end.

(** [for sd in step_details]. *)
Fixpoint for_step_details (sds : list json) (st : extractor)
  : result extractor :=
  match sds with
  | [] => Return st
  | JDict e :: rest =>
      if is_str (get e (txt "type")) (txt "tool_calls") then
        tcs <- iterate (py_or (get_default e (txt "tool_calls") (JList []))
                              (JList [])) ;;
        for_step_details rest (for_tool_calls tcs st)
      else for_step_details rest st
  | _ :: rest => for_step_details rest st
  end.

(** The [run.step.delta] branch. *)
Definition on_step_delta (data : dict) (st : extractor) : result extractor :=
  match get data (txt "delta") with
  | JDict delta =>
      match get_default delta (txt "step_details") (JList []) with
      | JList step_details => for_step_details step_details st
      | _ => Return st
      end
  | _ => Return st
  end.

Inductive flow : Type := Continue | Break.

(** One iteration of [for raw in r.iter_lines(...)]. *)
Definition on_line (l : line) (st : extractor) : result (extractor * flow) :=
  match l with
  | LineNone | LineBlank | LineNotJson => Return (st, Continue)
  | LineJson (JDict obj) =>
      let event_type := get obj (txt "event") in
      match get obj (txt "data") with
      | JDict data =>
          st' <- (if is_str event_type (txt "run.step.delta")
                  then on_step_delta data st else Return st) ;;
          if is_str event_type (txt "run.completed")
             || is_str event_type (txt "done")
          then Return (st', Break) else Return (st', Continue)
      | _ => Return (st, Continue)
      end
  | LineJson _ => Raise AttributeError   (* obj.get on a non-dict *)
  | LineUnread why => Raise (raised why)  (* not caught by the except *)
  end.

Fixpoint read_stream (lines : list line) (st : extractor)
  : result extractor :=
  match lines with
  | [] => Return st
  | l :: rest =>
      r <- on_line l st ;;
      match r with
      | (st', Break) => Return st'
      | (st', Continue) => read_stream rest st'
      end
  end.

Definition no_tool_args : exn :=
  RuntimeError
    (txt "No tool args captured from stream. Flow may not have emitted tool_calls.").

(** After the loop: the guard, then the [_tool_name] entry. *)
Definition finish (st : extractor) : result dict :=
  match tool_args st with
  | [] => Raise no_tool_args
  | args =>
      Return (dict_set args (txt "_tool_name") (py_or (tool_name st) (JStr [])))
  end.

Definition run_agent_stream_get_tool_args (r : response) : result dict :=
  if ok r then
    st <- read_stream (iter_lines r) no_capture ;;
    finish st
  else Raise HTTPError.

(** A response with a success status carrying the given lines. *)
Definition streaming (lines : list line) : response :=
  {| status_code := 200; iter_lines := lines |}.

(** ** SHA-256, as [hashlib.sha256(...).hexdigest()] computes it

    FIPS 180-4 over 32-bit words kept in [N], wrap-around written out. *)

Module Sha256.

Definition mask32 : N := 4294967295.
Definition w32 (x : N) : N := N.land x mask32.
Definition add32 (x y : N) : N := w32 (x + y).
Definition rotr (n x : N) : N :=
  N.lor (N.shiftr x n) (w32 (N.shiftl x (32 - n))).
Definition not32 (x : N) : N := N.lxor x mask32.

Definition ch (x y z : N) : N := N.lxor (N.land x y) (N.land (not32 x) z).
Definition maj (x y z : N) : N :=
  N.lxor (N.lxor (N.land x y) (N.land x z)) (N.land y z).
Definition bsig0 (x : N) : N :=
  N.lxor (N.lxor (rotr 2 x) (rotr 13 x)) (rotr 22 x).
Definition bsig1 (x : N) : N :=
  N.lxor (N.lxor (rotr 6 x) (rotr 11 x)) (rotr 25 x).
Definition ssig0 (x : N) : N :=
  N.lxor (N.lxor (rotr 7 x) (rotr 18 x)) (N.shiftr x 3).
Definition ssig1 (x : N) : N :=
  N.lxor (N.lxor (rotr 17 x) (rotr 19 x)) (N.shiftr x 10).

(** The constants of FIPS 180-4: the first 32 bits of the fractional
    parts of the cube roots (for [K]) and of the square roots (for [H0])
    of the first primes. *)
Definition is_prime (n : N) : bool :=
  (1 <? n)%N
  && forallb (fun d => negb (n mod d =? 0)%N)
             (map N.of_nat (seq 2 (N.to_nat n - 2))).

Definition first_primes (k : nat) : list N :=
  firstn k (filter is_prime (map N.of_nat (seq 2 310))).

(** The largest [r] below [2 ^ bits] with [r ^ e <= n], bit by bit. *)
Fixpoint root_bits (e : N) (bits : nat) (n r : N) : N :=
  match bits with
  | O => r
  | S b =>
      let c := (r + 2 ^ N.of_nat b)%N in
      root_bits e b n (if (c ^ e <=? n)%N then c else r)
  end.

Definition frac_root32 (e p : N) : N :=
  w32 (root_bits e 40 (p * 2 ^ (32 * e))%N 0%N).

Definition K : list N :=
  Eval vm_compute in map (frac_root32 3) (first_primes 64).

Record words8 : Type := W8 {
  wa : N; wb : N; wc : N; wd : N; we : N; wf : N; wg : N; wh : N
}.

Definition H0 : words8 :=
  Eval vm_compute in
    match map (frac_root32 2) (first_primes 8) with
    | [a; b; c; d; e; f; g; h] => W8 a b c d e f g h
    | _ => W8 0 0 0 0 0 0 0 0
    end.

(** Big-endian bytes of [x], [n] of them. *)
Fixpoint be_bytes (n : nat) (x : N) : list N :=
  match n with
  | O => []
  | S n' => N.land (N.shiftr x (8 * N.of_nat n')) 255 :: be_bytes n' x
  end.

(** The message, the bit [1], zeros up to 56 modulo 64, the bit length. *)
Definition pad (msg : list N) : list N :=
  let len := N.of_nat (length msg) in
  let zeros := N.to_nat ((119 - len mod 64) mod 64) in
  msg ++ [128%N] ++ repeat 0%N zeros ++ be_bytes 8 (8 * len).

Fixpoint be_words (n : nat) (bytes : list N) : list N :=
  match n, bytes with
  | S n', b0 :: b1 :: b2 :: b3 :: rest =>
      w32 (N.shiftl b0 24 + N.shiftl b1 16 + N.shiftl b2 8 + b3)
      :: be_words n' rest
  | _, _ => []
  end.

(** The message schedule: [ws] holds W[0..t-1]; [n] more to add. *)
Fixpoint schedule (n : nat) (ws : list N) : list N :=
  match n with
  | O => ws
  | S n' =>
      let t := length ws in
      let w := add32 (add32 (ssig1 (nth (t - 2) ws 0%N)) (nth (t - 7) ws 0%N))
                     (add32 (ssig0 (nth (t - 15) ws 0%N)) (nth (t - 16) ws 0%N)) in
      schedule n' (ws ++ [w])
  end.

Definition round (s : words8) (kw : N * N) : words8 :=
  let t1 := add32 (add32 (add32 (wh s) (bsig1 (we s)))
                         (add32 (ch (we s) (wf s) (wg s)) (fst kw)))
                  (snd kw) in
  let t2 := add32 (bsig0 (wa s)) (maj (wa s) (wb s) (wc s)) in
  W8 (add32 t1 t2) (wa s) (wb s) (wc s) (add32 (wd s) t1) (we s) (wf s) (wg s).

Definition compress (h : words8) (block : list N) : words8 :=
  let ws := schedule 48 (be_words 16 block) in
  let s := fold_left round (combine K ws) h in
  W8 (add32 (wa h) (wa s)) (add32 (wb h) (wb s))
     (add32 (wc h) (wc s)) (add32 (wd h) (wd s))
     (add32 (we h) (we s)) (add32 (wf h) (wf s))
     (add32 (wg h) (wg s)) (add32 (wh h) (wh s)).

Fixpoint blocks (n : nat) (bytes : list N) (h : words8) : words8 :=
  match n with
  | O => h
  | S n' => blocks n' (skipn 64 bytes) (compress h (firstn 64 bytes))
  end.

Definition digest (msg : list N) : words8 :=
  let p := pad msg in
  blocks (length p / 64) p H0.

End Sha256.

(** Lowercase hexadecimal digit of a value below 16. *)
Definition hex_digit (n : N) : codepoint :=
  if (n <? 10)%N then (48 + n)%N else (87 + n)%N.

Definition hex_word (w : N) : pystr :=
  map (fun i => hex_digit (N.land (N.shiftr w (4 * i)) 15))
      [7; 6; 5; 4; 3; 2; 1; 0]%N.

(** [hashlib.sha256(data).hexdigest()] *)
Definition hexdigest (data : list N) : pystr :=
  let h := Sha256.digest data in
  hex_word (Sha256.wa h) ++ hex_word (Sha256.wb h)
  ++ hex_word (Sha256.wc h) ++ hex_word (Sha256.wd h)
  ++ hex_word (Sha256.we h) ++ hex_word (Sha256.wf h)
  ++ hex_word (Sha256.wg h) ++ hex_word (Sha256.wh h).

(** ** The dedup key: [make_work_order_key] *)

Section Key.

Context {ucd : UnicodeData}.

(** [repr(v)] *)
Fixpoint py_repr (v : json) : pystr :=
  match v with
  | JNull => txt "None"
  | JBool true => txt "True"
  | JBool false => txt "False"
  | JInt z => decimal z
  | JFloat shown => shown
  | JStr s => repr s
  | JList items => txt "[" ++ join (txt ", ") (map py_repr items) ++ txt "]"
  | JDict entries =>
      txt "{"
      ++ join (txt ", ")
              (map (fun kv : pystr * json => let (k, x) := kv in
                              repr k ++ txt ": " ++ py_repr x) entries)
      ++ txt "}"
  end.

(** [str(v)] *)
Definition py_str (v : json) : pystr :=
  match v with
  | JStr s => s
  | _ => py_repr v
  end.

(** [str(args.get(field, "")).strip().lower()] *)
Definition canonical (args : dict) (field : pystr) : pystr :=
  lower (strip (py_str (get_default args field (JStr [])))).

Definition make_work_order_key (args : dict) : result pystr :=
  let asset := canonical args (txt "asset") in
  let incident_type := canonical args (txt "incident_type") in
  let severity := canonical args (txt "severity") in
  let summary := canonical args (txt "summary") in
  let incident_ts := canonical args (txt "timestamp") in
  let base := asset ++ txt "|" ++ incident_type ++ txt "|" ++ severity
              ++ txt "|" ++ incident_ts ++ txt "|" ++ summary in
  match utf8_encode base with
  | Some data => Return (hexdigest data)
  | None => Raise UnicodeEncodeError
  end.

End Key.

(** ** [json.dumps(args, ensure_ascii=False)] *)

Definition hex4 (c : N) : pystr :=
  map (fun i => hex_digit (N.land (N.shiftr c (4 * i)) 15)) [3; 2; 1; 0]%N.

Definition dumps_char (c : codepoint) : pystr :=
  if (c =? 34)%N then [92; 34]%N
  else if (c =? 92)%N then [92; 92]%N
  else if (c =? 10)%N then [92; 110]%N
  else if (c =? 13)%N then [92; 114]%N
  else if (c =? 9)%N then [92; 116]%N
  else if (c =? 8)%N then [92; 98]%N
  else if (c =? 12)%N then [92; 102]%N
  else if (c <? 32)%N then [92; 117]%N ++ hex4 c
  else [c].

Definition dumps_str (s : pystr) : pystr :=
  [34%N] ++ flat_map dumps_char s ++ [34%N].

Definition dumps_float (shown : pystr) : pystr :=
  if Text.eqb shown (txt "nan") then txt "NaN"
  else if Text.eqb shown (txt "inf") then txt "Infinity"
  else if Text.eqb shown (txt "-inf") then txt "-Infinity"
  else shown.

Fixpoint dumps (v : json) : pystr :=
  match v with
  | JNull => txt "null"
  | JBool true => txt "true"
  | JBool false => txt "false"
  | JInt z => decimal z
  | JFloat shown => dumps_float shown
  | JStr s => dumps_str s
  | JList items => txt "[" ++ join (txt ", ") (map dumps items) ++ txt "]"
  | JDict entries =>
      txt "{"
      ++ join (txt ", ")
              (map (fun kv : pystr * json => let (k, x) := kv in
                              dumps_str k ++ txt ": " ++ dumps x) entries)
      ++ txt "}"
  end.

(** ** The store: SQLite behind [db_connect], [db_init] and
       [upsert_work_order] *)

(** A value as sqlite3 binds it to a [?]. *)
Inductive sql_value : Type :=
| SqlNull
| SqlInteger (z : Z)
| SqlReal (shown : pystr)
| SqlText (s : pystr).

Definition encodable (s : pystr) : bool :=
  match utf8_encode s with
  | Some _ => true
  | None => false
  end.

Definition bind_text (s : pystr) : result sql_value :=
  if encodable s then Return (SqlText s) else Raise UnicodeEncodeError.

Definition bind_int (z : Z) : result sql_value :=
  if ((- 2 ^ 63 <=? z) && (z <? 2 ^ 63))%Z
  then Return (SqlInteger z) else Raise OverflowError.

(** Binding of a Python value: [None], [bool], [int], [float] and [str]
    are taken, a [list] or a [dict] is refused, and a NaN is stored as
    NULL. *)
Definition bind_param (v : json) : result sql_value :=
  match v with
  | JNull => Return SqlNull
  | JBool b => Return (SqlInteger (if b then 1 else 0))
  | JInt z => bind_int z
  | JFloat shown =>
      Return (if Text.eqb shown (txt "nan") then SqlNull else SqlReal shown)
  | JStr s => bind_text s
  | JList _ | JDict _ => Raise ProgrammingError
  end.

(** A row of [users]. *)
Record user : Type := {
  user_id : Z;
  user_email : pystr;
  user_name : pystr;
  user_created_at : pystr
}.

(** What a column declared [TEXT] holds: NULL or a text.  A number bound
    to it is stored as text: an integer as its decimal digits, a float as
    the text SQLite prints for it, which is not Python's (it keeps
    fifteen significant digits), so the float is named by what Python
    shows for it and the text is left to SQLite. *)
Inductive text_column : Type :=
| StoredNull
| StoredText (s : pystr)
| StoredRealText (shown : pystr).

(** The TEXT affinity of a column, applied to the value bound to it. *)
Definition text_affinity (v : sql_value) : text_column :=
  match v with
  | SqlNull => StoredNull
  | SqlInteger z => StoredText (decimal z)
  | SqlReal shown => StoredRealText shown
  | SqlText s => StoredText s
  end.

(** A row of [work_orders].  [db_init] declares the six payload columns
    [TEXT]; the key, the clock text and the JSON text are bound as texts
    and the creator, an [INTEGER] column, as an integer, so these four
    are stored as bound. *)
Record work_order : Type := {
  rowid : Z;
  work_order_key : pystr;
  created_at : pystr;
  created_by_user_id : Z;
  asset : text_column;
  incident_type : text_column;
  severity : text_column;
  location : text_column;
  incident_timestamp : text_column;
  summary : text_column;
  raw_json : pystr
}.

(** The database file: each table, once created, and the AUTOINCREMENT
    counter of [work_orders] (the largest rowid ever given out). *)
Record database : Type := {
  users : option (list user);
  work_orders : option (list work_order);
  work_orders_seq : Z
}.

Record connection : Type := {
  foreign_keys : bool;
  file : database
}.

(** [sqlite3.connect(DB_PATH)] on the file, then [PRAGMA foreign_keys=ON]. *)
Definition db_connect (db : database) : connection :=
  {| foreign_keys := true; file := db |}.

Definition table_or_empty {A} (t : option (list A)) : list A :=
  match t with
  | Some rows => rows
  | None => []
  end.

(** [CREATE TABLE IF NOT EXISTS] for both tables. *)
Definition db_init (conn : connection) : connection :=
  {| foreign_keys := foreign_keys conn;
     file := {| users := Some (table_or_empty (users (file conn)));
                work_orders := Some (table_or_empty (work_orders (file conn)));
                work_orders_seq := work_orders_seq (file conn) |} |}.

Definition max_rowid (rows : list work_order) : Z :=
  fold_right (fun r m => Z.max (rowid r) m) 0%Z rows.

Definition largest_rowid : Z := (2 ^ 63 - 1)%Z.

Definition key_taken (key : pystr) (rows : list work_order) : bool :=
  existsb (fun r => Text.eqb (work_order_key r) key) rows.

Definition user_known (uid : Z) (us : list user) : bool :=
  existsb (fun u => (user_id u =? uid)%Z) us.

(** Compiling the INSERT: the table must exist, and with foreign keys
    enforced so must the parent table; otherwise [OperationalError].
    Gives the rows of [work_orders] and of [users]. *)
Definition prepare_insert (conn : connection)
  : result (list work_order * list user) :=
  match work_orders (file conn), users (file conn) with
  | None, _ => Raise OperationalError
  | Some rows, Some us => Return (rows, us)
  | Some rows, None =>
      if foreign_keys conn then Raise OperationalError else Return (rows, [])
  end.

(** Running the INSERT with its parameters bound, followed by [commit]:
    [None] is [sqlite3.IntegrityError] (UNIQUE or FOREIGN KEY failed,
    nothing stored); an exhausted rowid is an [OperationalError]. *)
Definition insert_work_order (conn : connection)
    (rows : list work_order) (us : list user)
    (mk : Z -> work_order) (key : pystr) (uid : Z)
  : result (option connection) :=
  let last := Z.max (work_orders_seq (file conn)) (max_rowid rows) in
  if (largest_rowid <=? last)%Z then Raise OperationalError
  else if key_taken key rows then Return None
  else if foreign_keys conn && negb (user_known uid us) then Return None
  else
    Return (Some
      {| foreign_keys := foreign_keys conn;
         file := {| users := users (file conn);
                    work_orders := Some (rows ++ [mk (last + 1)%Z]);
                    work_orders_seq := (last + 1)%Z |} |}).

Definition Inserted : bool := true.
Definition Duplicate : bool := false.

Section Upsert.

Context {ucd : UnicodeData}.

(** [now] is what [utc_now_iso()] reads from the clock.  The result is
    the returned flag and the connection after the call. *)
Definition upsert_work_order (conn : connection) (uid : Z) (args : dict)
    (now : pystr) : result (bool * connection) :=
  wo_key <- make_work_order_key args ;;
  let raw := dumps (JDict args) in
  tables <- prepare_insert conn ;;
  p_key <- bind_text wo_key ;;
  p_created <- bind_text now ;;
  p_user <- bind_int uid ;;
  p_asset <- bind_param (get args (txt "asset")) ;;
  p_type <- bind_param (get args (txt "incident_type")) ;;
  p_severity <- bind_param (get args (txt "severity")) ;;
  p_location <- bind_param (get args (txt "location")) ;;
  p_timestamp <- bind_param (get args (txt "timestamp")) ;;
  p_summary <- bind_param (get args (txt "summary")) ;;
  p_raw <- bind_text raw ;;
  let mk := fun i =>
    {| rowid := i; work_order_key := wo_key; created_at := now;
       created_by_user_id := uid;
       asset := text_affinity p_asset;
       incident_type := text_affinity p_type;
       severity := text_affinity p_severity;
       location := text_affinity p_location;
       incident_timestamp := text_affinity p_timestamp;
       summary := text_affinity p_summary; raw_json := raw |} in
  r <- insert_work_order conn (fst tables) (snd tables) mk wo_key uid ;;
  match r with
  | Some conn' => Return (Inserted, conn')
  | None => Return (Duplicate, conn)
  end.

End Upsert.

(** The records stored under a key. *)
Definition records_for (key : pystr) (conn : connection) : list work_order :=
  filter (fun r => Text.eqb (work_order_key r) key)
         (table_or_empty (work_orders (file conn))).

(** ** The vocabulary of the specification

    Stated from the specification's words, to be compared with the loop
    above. *)

(** ToolCall: a name and an argument mapping. *)
Record tool_call : Type := {
  call_name : json;
  call_args : dict
}.

(** A [tool_calls] entry counts when its name is non-empty and its args
    is a mapping. *)
Definition qualifying (tc : json) : option tool_call :=
  match tc with
  | JDict e =>
      match get e (txt "args") with
      | JDict a =>
          if truthy (get e (txt "name"))
          then Some {| call_name := get e (txt "name"); call_args := a |}
          else None
      | _ => None
      end
  | _ => None
  end.

(** The items of an ordered sequence; anything else has none. *)
Definition sequence_items (v : json) : list json :=
  match v with
  | JList items => items
  | _ => []
  end.

(** The [tool_calls] sequence of a step_details entry of type
    [tool_calls]. *)
Definition step_tool_calls (sd : json) : list json :=
  match sd with
  | JDict e =>
      if is_str (get e (txt "type")) (txt "tool_calls")
      then sequence_items (get_default e (txt "tool_calls") (JList []))
      else []
  | _ => []
  end.

(** [data.delta.step_details] of a [run.step.delta] event. *)
Definition step_details_of (l : line) : list json :=
  match l with
  | LineJson (JDict obj) =>
      match get obj (txt "data") with
      | JDict data =>
          if is_str (get obj (txt "event")) (txt "run.step.delta") then
            match get data (txt "delta") with
            | JDict delta =>
                sequence_items
                  (get_default delta (txt "step_details") (JList []))
            | _ => []
            end
          else []
      | _ => []
      end
  | _ => []
  end.

Fixpoint keep_qualifying (tcs : list json) : list tool_call :=
  match tcs with
  | [] => []
  | tc :: rest =>
      match qualifying tc with
      | Some c => c :: keep_qualifying rest
      | None => keep_qualifying rest
      end
  end.

(** The qualifying entries one line carries, in order. *)
Definition observed (l : line) : list tool_call :=
  flat_map (fun sd => keep_qualifying (step_tool_calls sd))
           (step_details_of l).

(** The kind of an event is [run.completed] or [done]. *)
Definition terminal_kind (l : line) : bool :=
  match l with
  | LineJson (JDict obj) =>
      is_str (get obj (txt "event")) (txt "run.completed")
      || is_str (get obj (txt "event")) (txt "done")
  | _ => false
  end.

(** The data of an event is a mapping. *)
Definition has_data (l : line) : bool :=
  match l with
  | LineJson (JDict obj) =>
      match get obj (txt "data") with
      | JDict _ => true
      | _ => false
      end
  | _ => false
  end.

Definition is_terminal (l : line) : bool := terminal_kind l && has_data l.

(** The stream up to and with its first terminal event. *)
Fixpoint until_terminal (lines : list line) : list line :=
  match lines with
  | [] => []
  | l :: rest => if is_terminal l then [l] else l :: until_terminal rest
  end.

(** Every ToolCall captured during a run, in stream order. *)
Definition captured (lines : list line) : list tool_call :=
  flat_map observed (until_terminal lines).

(** The last call of a sequence, if it has one. *)
Fixpoint last_call (calls : list tool_call) : option tool_call :=
  match calls with
  | [] => None
  | c :: rest =>
      match last_call rest with
      | Some c' => Some c'
      | None => Some c
      end
  end.

(** The extractor holding a given current ToolCall, or none. *)
Definition holding (c : option tool_call) : extractor :=
  match c with
  | Some c => {| tool_name := call_name c; tool_args := call_args c |}
  | None => no_capture
  end.

(** A line the decoder drops: nothing, blank, or not JSON. *)
Definition skipped (l : line) : bool :=
  match l with
  | LineNone | LineBlank | LineNotJson => true
  | LineJson _ | LineUnread _ => false
  end.

(** The external format: a decoded line is an object, and where a step
    of type [tool_calls] gives a [tool_calls] value it is empty or can be
    iterated. *)
Definition iterable (v : json) : bool :=
  match v with
  | JList _ | JDict _ | JStr _ => true
  | _ => false
  end.

Definition step_ok (sd : json) : bool :=
  match sd with
  | JDict e =>
      if is_str (get e (txt "type")) (txt "tool_calls") then
        let v := get_default e (txt "tool_calls") (JList []) in
        negb (truthy v) || iterable v
      else true
  | _ => true
  end.

(** A line in that format; one on which [json.loads] raises anything
    but [JSONDecodeError] is not. *)
Definition line_ok (l : line) : bool :=
  match l with
  | LineJson (JDict _) => forallb step_ok (step_details_of l)
  | LineJson _ | LineUnread _ => false
  | LineNone | LineBlank | LineNotJson => true
  end.

(** *** Streams of the specification's scenarios *)

Definition tool_call_entry (name : pystr) (args : dict) : json :=
  JDict [(txt "name", JStr name); (txt "args", JDict args)].

(** A [run.step.delta] event with one step of type [tool_calls]. *)
Definition step_delta (tcs : list json) : line :=
  LineJson (JDict
    [(txt "event", JStr (txt "run.step.delta"));
     (txt "data", JDict
        [(txt "delta", JDict
           [(txt "step_details", JList
              [JDict [(txt "type", JStr (txt "tool_calls"));
                      (txt "tool_calls", JList tcs)]])])])]).

Definition done_event : line :=
  LineJson (JDict [(txt "event", JStr (txt "done")); (txt "data", JDict [])]).

(** A [done] record that carries no data. *)
Definition done_without_data : line :=
  LineJson (JDict [(txt "event", JStr (txt "done"))]).

Definition bin7_args : dict :=
  [(txt "asset", JStr (txt "Bin 7"));
   (txt "severity", JStr (txt "P2"));
   (txt "incident_type", JStr (txt "overheat"))].

(** The end-to-end scenario's stream. *)
Definition scenario : list line :=
  [step_delta [tool_call_entry (txt "log_incident") bin7_args]; done_event].

Definition first_args : dict := [(txt "asset", JStr (txt "Bin7"))].
Definition second_args : dict :=
  [(txt "asset", JStr (txt "Bin7")); (txt "severity", JStr (txt "P2"))].

(** Two deltas, the second one adding the severity. *)
Definition two_deltas : list line :=
  [step_delta [tool_call_entry (txt "log_incident") first_args];
   step_delta [tool_call_entry (txt "log_incident") second_args]].

Definition log_incident : json := JStr (txt "log_incident").

(** The result the specification's scenario writes down. *)
Definition scenario_result_as_specified : dict :=
  bin7_args ++ [(txt "tool_name", log_incident)].

(** A run whose only tool call has an empty argument mapping. *)
Definition empty_args_run : list line :=
  [step_delta [tool_call_entry (txt "log_incident") []]; done_event].

Definition run_started : line :=
  LineJson (JDict [(txt "event", JStr (txt "run.started"));
                   (txt "data", JDict [])]).

Definition run_completed : line :=
  LineJson (JDict [(txt "event", JStr (txt "run.completed"));
                   (txt "data", JDict [])]).

Definition first_delta : line :=
  step_delta [tool_call_entry (txt "log_incident") first_args].
Definition second_delta : line :=
  step_delta [tool_call_entry (txt "log_incident") second_args].

(** A line of 5000 digits, or of 100000 opening brackets: [json.loads]
    raises [ValueError] on the first and [RecursionError] on the second,
    and neither is a [JSONDecodeError]. *)
Definition digits_line : line := LineUnread IntegerTooLong.
Definition brackets_line : line := LineUnread NestingTooDeep.

(** The run reaches completion: the loop over the lines ends without an
    exception. *)
Definition completes (lines : list line) : Prop :=
  exists st, read_stream lines no_capture = Return st.

(** *** The key, in the specification's words *)

Definition key_fields : list pystr :=
  [txt "asset"; txt "incident_type"; txt "severity"; txt "timestamp";
   txt "summary"].

Definition is_lower_hex (c : codepoint) : bool :=
  ((48 <=? c) && (c <=? 57) || (97 <=? c) && (c <=? 102))%N.

Section KeyWords.

Context {ucd : UnicodeData}.

(** A field's value: the empty text when absent, then trimmed of
    surrounding whitespace and lowercased. *)
Definition canonical_value (v : option json) : pystr :=
  lower (strip (match v with
                | Some x => py_str x
                | None => []
                end)).

(** The five canonical values joined with one [|]. *)
Definition key_text (args : dict) : pystr :=
  join (txt "|")
       (map (fun f => canonical_value (dict_lookup args f)) key_fields).

(** The lowercase hexadecimal SHA-256 digest of the UTF-8 encoding. *)
Definition specified_key (args : dict) : result pystr :=
  match utf8_encode (key_text args) with
  | Some data => Return (hexdigest data)
  | None => Raise UnicodeEncodeError
  end.

(** Two characters [str.lower] does not tell apart, wherever they stand
    in a text. *)
Definition folds (a b : codepoint) : Prop :=
  forall pre post, lower (pre ++ a :: post) = lower (pre ++ b :: post).

(** Two characters that differ at most in case: the same character, the
    two cases of an ASCII letter, or two forms of one letter, neither of
    them whitespace, that [str.lower] does not tell apart. *)
Definition same_letter (a b : codepoint) : Prop :=
  a = b
  \/ ascii_lower a = ascii_lower b
  \/ (is_space a = false /\ is_space b = false /\ folds a b).

(** Two texts that differ only in case, character by character. *)
Definition case_variant (c c' : pystr) : Prop := Forall2 same_letter c c'.

(** Two texts that differ only in case and in the whitespace around
    them. *)
Definition case_ws_variant (s t : pystr) : Prop :=
  exists l r l' r' c c',
    s = l ++ c ++ r /\ t = l' ++ c' ++ r'
    /\ forallb is_space l = true /\ forallb is_space r = true
    /\ forallb is_space l' = true /\ forallb is_space r' = true
    /\ case_variant c c'.

(** The text of a field's value: what [str] prints for it, and the empty
    text for a field the payload lacks. *)
Definition field_text (v : option json) : pystr :=
  match v with
  | Some x => py_str x
  | None => []
  end.

(** A field of two payloads whose values differ only that way. *)
Definition field_variant (v w : option json) : Prop :=
  case_ws_variant (field_text v) (field_text w).

End KeyWords.

(** *** The store, in the specification's words *)

Definition returns {A} (r : result A) : bool :=
  match r with
  | Return _ => true
  | Raise _ => false
  end.

(** The columns bound from the payload. *)
Definition payload_columns : list pystr :=
  [txt "asset"; txt "incident_type"; txt "severity"; txt "location";
   txt "timestamp"; txt "summary"].

(** Every value the INSERT binds is one sqlite3 takes: the clock text,
    the creator id, the six payload columns and the JSON text. *)
Definition storable (uid : Z) (args : dict) (now : pystr) : bool :=
  returns (bind_text now) && returns (bind_int uid)
  && forallb (fun f => returns (bind_param (get args f))) payload_columns
  && returns (bind_text (dumps (JDict args))).

(** The largest rowid [work_orders] has given out. *)
Definition last_rowid (conn : connection) : Z :=
  Z.max (work_orders_seq (file conn))
        (max_rowid (table_or_empty (work_orders (file conn)))).

Definition bound (r : result sql_value) : sql_value :=
  match r with
  | Return v => v
  | Raise _ => SqlNull
  end.

(** What a payload column holds for a field of the payload: the value
    bound for it, stored as a [TEXT] column stores it. *)
Definition column_of (args : dict) (f : pystr) : text_column :=
  text_affinity (bound (bind_param (get args f))).

(** The record an accepted payload becomes. *)
Definition new_row (i : Z) (key : pystr) (uid : Z) (args : dict)
    (now : pystr) : work_order :=
  {| rowid := i; work_order_key := key; created_at := now;
     created_by_user_id := uid;
     asset := column_of args (txt "asset");
     incident_type := column_of args (txt "incident_type");
     severity := column_of args (txt "severity");
     location := column_of args (txt "location");
     incident_timestamp := column_of args (txt "timestamp");
     summary := column_of args (txt "summary");
     raw_json := dumps (JDict args) |}.

(** The connection after one more record. *)
Definition with_row (conn : connection) (rows : list work_order)
    (row : work_order) : connection :=
  {| foreign_keys := foreign_keys conn;
     file := {| users := users (file conn);
                work_orders := Some (rows ++ [row]);
                work_orders_seq := rowid row |} |}.

(** A new database file, and the default user's row. *)
Definition empty_file : database :=
  {| users := None; work_orders := None; work_orders_seq := 0 |}.

Definition default_user : user :=
  {| user_id := 1;
     user_email := txt "default_user@farm.local";
     user_name := txt "Farm Ops Default";
     user_created_at := txt "2025-01-01T00:00:00Z" |}.

(** An initialised store holding the default user and no work order. *)
Definition ready_store : connection :=
  {| foreign_keys := true;
     file := {| users := Some [default_user];
                work_orders := Some [];
                work_orders_seq := 0 |} |}.

(** *** Payloads and clock readings used as instances below *)

Definition noon : pystr := txt "2025-06-01T12:00:00Z".
Definition later : pystr := txt "2025-06-01T12:05:00Z".

(** A payload whose asset is a list. *)
Definition listed_asset : dict :=
  [(txt "asset", JList [JStr (txt "Bin 7")]); (txt "severity", JStr (txt "P2"))].

Definition bin7_north : dict :=
  bin7_args
  ++ [(txt "location", JStr (txt "North yard"));
      (txt "hypotheses", JList [JStr (txt "fan failure")]);
      (txt "actions", JList [JStr (txt "inspect fan")])].

(** [bin7_north] with a list of places as its location. *)
Definition bin7_listed : dict :=
  dict_set bin7_north (txt "location")
           (JList [JStr (txt "North yard"); JStr (txt "Gate 2")]).

Definition bin7_south : dict :=
  bin7_args
  ++ [(txt "location", JStr (txt "South yard"));
      (txt "hypotheses", JList [JStr (txt "sensor drift");
                                JStr (txt "wet grain")]);
      (txt "actions", JList [])].




(** A payload with numbers in its columns. *)
Definition counted : dict :=
  [(txt "asset", JInt 5); (txt "severity", JBool true);
   (txt "summary", JFloat (txt "1.5"))].

(** An asset [ Café 7] with whitespace around it, and [CAFÉ 7]; 233 and
    201 are the two cases of the accented letter. *)
Definition padded_cafe : dict :=
  [(txt "asset", JStr (txt " Caf" ++ [233%N] ++ txt " 7  "))].

Definition shouted_cafe : dict :=
  [(txt "asset", JStr (txt "CAF" ++ [201%N] ++ txt " 7"))].

(** *** ASCII tables

    The tables restricted to ASCII, to run the definitions on the
    inputs below: [lower] maps [A]..[Z], and [repr] quotes a text taking
    every code point from 32 on, 127 apart, as printable.  They are
    CPython's on ASCII text.  Beyond it [lower] leaves every character
    as it is, which is CPython's for a letter that is lowercase already
    (233, 383) and not for a capital (201), and [repr] escapes nothing;
    no statement below runs them on a text where they differ from
    CPython's. *)

Definition ascii_repr_char (q c : codepoint) : pystr :=
  if (c =? 92)%N then [92; 92]%N
  else if (c =? q)%N then [92%N; q]
  else if (c =? 10)%N then [92; 110]%N
  else if (c =? 13)%N then [92; 114]%N
  else if (c =? 9)%N then [92; 116]%N
  else if ((c <? 32) || (c =? 127))%N then
    [92; 120]%N ++ map (fun i => hex_digit (N.land (N.shiftr c (4 * i)) 15))
                       [1; 0]%N
  else [c].

Definition ascii_repr (s : pystr) : pystr :=
  let q := if existsb (N.eqb 39) s && negb (existsb (N.eqb 34) s)
           then 34%N else 39%N in
  [q] ++ flat_map (ascii_repr_char q) s ++ [q].

(** The current ToolCall after a further sequence of calls: each one
    replaces it. *)
Definition settle (st : extractor) (calls : list tool_call) : extractor :=
  fold_left (fun _ c => holding (Some c)) calls st.

(** ** The default user: [ensure_default_user] *)

Definition DEFAULT_USER_EMAIL : pystr := txt "default_user@farm.local".
Definition DEFAULT_USER_NAME : pystr := txt "Farm Ops Default".

(** [SELECT id FROM users WHERE email = ?], then [fetchone()]. *)
Definition select_user_id (us : list user) (email : pystr) : option Z :=
  match find (fun u => Text.eqb (user_email u) email) us with
  | Some u => Some (user_id u)
  | None => None
  end.

Definition max_user_id (us : list user) : Z :=
  fold_right (fun u m => Z.max (user_id u) m) 0%Z us.

(** The connection after one more user. *)
Definition with_user (conn : connection) (us : list user) (u : user)
  : connection :=
  {| foreign_keys := foreign_keys conn;
     file := {| users := Some (us ++ [u]);
                work_orders := work_orders (file conn);
                work_orders_seq := work_orders_seq (file conn) |} |}.

(** [users_seq] is the AUTOINCREMENT counter SQLite keeps for [users]
    (the record of the file carries the one of [work_orders] only) and
    [now] is what [utc_now_iso()] reads.  The result is the id, the
    connection and the counter after the call.  The last [fetchone()]
    is subscripted as it is: no row would be a [TypeError]. *)
Definition ensure_default_user (conn : connection) (users_seq : Z)
    (now : pystr) : result (Z * connection * Z) :=
  match users (file conn) with
  | None => Raise OperationalError
  | Some us =>
      match select_user_id us DEFAULT_USER_EMAIL with
      | Some id => Return (id, conn, users_seq)
      | None =>
          p_email <- bind_text DEFAULT_USER_EMAIL ;;
          p_name <- bind_text DEFAULT_USER_NAME ;;
          p_now <- bind_text now ;;
          let last := Z.max users_seq (max_user_id us) in
          if (largest_rowid <=? last)%Z then Raise OperationalError
          else
            let u := {| user_id := (last + 1)%Z;
                        user_email := DEFAULT_USER_EMAIL;
                        user_name := DEFAULT_USER_NAME;
                        user_created_at := now |} in
            match select_user_id (us ++ [u]) DEFAULT_USER_EMAIL with
            | Some id => Return (id, with_user conn us u, (last + 1)%Z)
            | None => Raise TypeError
            end
      end
  end.

(** ** The two e-mails: [build_ops_email] and [build_maint_email] *)

Definition OPS_EMAIL_TO : pystr := txt "shadab@ualberta.ca".
Definition MAINT_EMAIL_TO : pystr := txt "shadab@ualberta.ca".

(** [" — "]: the dash of the subjects is U+2014. *)
Definition dash : pystr := [32; 8212; 32]%N.

Definition newline : pystr := [10%N].

(** The items of [lines] when every one is a [str]. *)
Fixpoint texts (lines : list json) : option (list pystr) :=
  match lines with
  | [] => Some []
  | JStr s :: rest =>
      match texts rest with
      | Some ts => Some (s :: ts)
      | None => None
      end
  | _ :: _ => None
  end.

(** ["\n".join(lines)]: an item that is no [str] is a [TypeError]. *)
Definition join_lines (lines : list json) : result pystr :=
  match texts lines with
  | Some ts => Return (join newline ts)
  | None => Raise TypeError
  end.

Section Email.

Context {ucd : UnicodeData}.

(** A replacement field [{v}] of an f-string. *)
Definition fmt (v : json) : pystr := py_str v.

(** The lines [f"{i}. {h}"] of [enumerate(items, i)]. *)
Fixpoint numbered (i : Z) (items : list json) : list json :=
  match items with
  | [] => []
  | h :: rest =>
      JStr (decimal i ++ txt ". " ++ fmt h) :: numbered (i + 1) rest
  end.

(** The lines [f"- {a}"]. *)
Definition bulleted (items : list json) : list json :=
  map (fun a => JStr (txt "- " ++ fmt a)) items.

(** [if items: lines.append(""); lines.append(title); for ...]. *)
Definition section_of (lines : list json) (title : pystr) (items : json)
    (render : list json -> list json) : result (list json) :=
  if truthy items then
    xs <- iterate items ;;
    Return (lines ++ [JStr []; JStr title] ++ render xs)
  else Return lines.

Definition build_ops_email (args : dict) : result dict :=
  let asset := get_default args (txt "asset") (JStr (txt "Unknown asset")) in
  let severity := get_default args (txt "severity") (JStr (txt "Unknown")) in
  let incident_type :=
    get_default args (txt "incident_type") (JStr (txt "unknown")) in
  let location := get_default args (txt "location") (JStr []) in
  let incident_ts := get_default args (txt "timestamp") (JStr []) in
  let summary := get_default args (txt "summary") (JStr []) in
  let hypotheses :=
    py_or (get_default args (txt "hypotheses") (JList [])) (JList []) in
  let actions :=
    py_or (get_default args (txt "actions") (JList [])) (JList []) in
  let subject :=
    fmt severity ++ txt " " ++ fmt asset ++ txt " " ++ fmt incident_type
    ++ dash ++ txt "incident notification" in
  let lines :=
    [JStr (txt "Incident logged: " ++ fmt asset); JStr []]
    ++ (if truthy summary then [JStr (txt "Summary"); summary; JStr []]
        else [])
    ++ [JStr (txt "Details");
        JStr (txt "- Classification: " ++ fmt incident_type);
        JStr (txt "- Severity: " ++ fmt severity)]
    ++ (if truthy location
        then [JStr (txt "- Location: " ++ fmt location)] else [])
    ++ (if truthy incident_ts
        then [JStr (txt "- Incident Timestamp: " ++ fmt incident_ts)]
        else []) in
  lines <- section_of lines (txt "Likely causes (ranked)") hypotheses
             (numbered 1) ;;
  lines <- section_of lines (txt "Immediate action checklist") actions
             bulleted ;;
  text <- join_lines lines ;;
  Return [(txt "to", JStr OPS_EMAIL_TO);
          (txt "subject", JStr subject);
          (txt "body", JStr (strip text))].

Definition build_maint_email (args : dict) : result dict :=
  let asset := get_default args (txt "asset") (JStr (txt "Unknown asset")) in
  let severity := get_default args (txt "severity") (JStr (txt "Unknown")) in
  let incident_type :=
    get_default args (txt "incident_type") (JStr (txt "unknown")) in
  let location := get_default args (txt "location") (JStr []) in
  let incident_ts := get_default args (txt "timestamp") (JStr []) in
  let summary := get_default args (txt "summary") (JStr []) in
  let actions :=
    py_or (get_default args (txt "actions") (JList [])) (JList []) in
  let subject :=
    txt "MAINT: " ++ fmt severity ++ txt " " ++ fmt asset ++ txt " "
    ++ fmt incident_type ++ dash ++ txt "maintenance action" in
  let lines :=
    [JStr (txt "Maintenance request"); JStr [];
     JStr (txt "Asset: " ++ fmt asset);
     JStr (txt "Type: " ++ fmt incident_type);
     JStr (txt "Severity: " ++ fmt severity)]
    ++ (if truthy location
        then [JStr (txt "Location: " ++ fmt location)] else [])
    ++ (if truthy incident_ts
        then [JStr (txt "Incident Timestamp: " ++ fmt incident_ts)]
        else [])
    ++ (if truthy summary then [JStr []; JStr (txt "Summary"); summary]
        else []) in
  lines <- section_of lines (txt "Recommended actions") actions bulleted ;;
  text <- join_lines lines ;;
  Return [(txt "to", JStr MAINT_EMAIL_TO);
          (txt "subject", JStr subject);
          (txt "body", JStr (strip text))].

End Email.

(** * Properties of the run *)

Lemma eqb_refl (s : pystr) : Text.eqb s s = true.
Proof.
  induction s as [|c s IH]; simpl; [reflexivity|].
  now rewrite N.eqb_refl, IH.
Qed.

Lemma eqb_eq (s t : pystr) : Text.eqb s t = true <-> s = t.
Proof.
  split; [|intros ->; apply eqb_refl].
  revert t; induction s as [|c s IH]; destruct t as [|d t]; simpl;
    try discriminate; [reflexivity|].
  intros H. apply andb_true_iff in H as [Hc Hs].
  apply N.eqb_eq in Hc. apply IH in Hs. now subst.
Qed.

Lemma eqb_neq (s t : pystr) : s <> t -> Text.eqb s t = false.
Proof.
  intros H. destruct (Text.eqb s t) eqn:E; [|reflexivity].
  apply eqb_eq in E. contradiction.
Qed.

Lemma dict_lookup_set_same (d : dict) (k : pystr) (v : json) :
  dict_lookup (dict_set d k v) k = Some v.
Proof.
  induction d as [|[k' v'] d IH]; simpl.
  - now rewrite eqb_refl.
  - destruct (Text.eqb k' k) eqn:E; simpl.
    + now rewrite eqb_refl.
    + now rewrite E.
Qed.

Lemma dict_lookup_set_other (d : dict) (k k2 : pystr) (v : json) :
  k2 <> k -> dict_lookup (dict_set d k v) k2 = dict_lookup d k2.
Proof.
  intros N. assert (F : Text.eqb k k2 = false)
    by (apply eqb_neq; congruence).
  induction d as [|[k' v'] d IH]; simpl.
  - now rewrite F.
  - destruct (Text.eqb k' k) eqn:E; simpl.
    + apply eqb_eq in E. subst k'. now rewrite F.
    + destruct (Text.eqb k' k2); [reflexivity|exact IH].
Qed.

Lemma is_str_eq (v : json) (lit : pystr) :
  is_str v lit = true -> v = JStr lit.
Proof.
  destruct v; simpl; try discriminate.
  intros H. apply eqb_eq in H. now subst.
Qed.

Lemma settle_app (st : extractor) (xs ys : list tool_call) :
  settle st (xs ++ ys) = settle (settle st xs) ys.
Proof. unfold settle. apply fold_left_app. Qed.

Lemma settle_last (calls : list tool_call) (st : extractor) :
  settle st calls =
  match last_call calls with
  | Some c => holding (Some c)
  | None => st
  end.
Proof.
  revert st. induction calls as [|c calls IH]; intros st; [reflexivity|].
  change (settle st (c :: calls)) with (settle (holding (Some c)) calls).
  rewrite IH. simpl. destruct (last_call calls); reflexivity.
Qed.

Lemma on_tool_call_qualifying (tc : json) (st : extractor) :
  on_tool_call tc st =
  match qualifying tc with
  | Some c => holding (Some c)
  | None => st
  end.
Proof.
  destruct tc; simpl; try reflexivity.
  destruct (get entries (txt "args")); try reflexivity.
  destruct (truthy (get entries (txt "name"))); reflexivity.
Qed.

Lemma for_tool_calls_settle (tcs : list json) (st : extractor) :
  for_tool_calls tcs st = settle st (keep_qualifying tcs).
Proof.
  revert st. induction tcs as [|tc tcs IH]; intros st; [reflexivity|].
  simpl. rewrite IH, on_tool_call_qualifying.
  destruct (qualifying tc); reflexivity.
Qed.

(** Keys of a mapping and characters of a text are texts: no entry among
    them qualifies. *)
Lemma keep_qualifying_texts {A} (f : A -> pystr) (xs : list A) :
  keep_qualifying (map (fun x => JStr (f x)) xs) = [].
Proof. induction xs as [|x xs IH]; simpl; [reflexivity|exact IH]. Qed.

Lemma iterate_step (v : json) :
  negb (truthy v) || iterable v = true ->
  exists tcs, iterate (py_or v (JList [])) = Return tcs
              /\ keep_qualifying tcs = keep_qualifying (sequence_items v).
Proof.
  unfold py_or. intros H.
  destruct (truthy v) eqn:T; simpl in H.
  - destruct v; try discriminate; simpl.
    + exists (map (fun c => JStr [c]) s). split; [reflexivity|].
      apply (keep_qualifying_texts (fun c => [c])).
    + now exists items.
    + exists (map (fun kv => JStr (fst kv)) entries). split; [reflexivity|].
      apply (keep_qualifying_texts fst).
  - exists []. split; [reflexivity|].
    destruct v; try reflexivity. destruct items; [reflexivity|discriminate].
Qed.

Lemma for_step_details_settle (sds : list json) (st : extractor) :
  forallb step_ok sds = true ->
  for_step_details sds st =
  Return (settle st (flat_map (fun sd => keep_qualifying (step_tool_calls sd)) sds)).
Proof.
  revert st. induction sds as [|sd sds IH]; intros st H; [reflexivity|].
  simpl in H. apply andb_true_iff in H as [Hsd Hrest].
  cbn [flat_map]. rewrite settle_app.
  destruct sd; simpl; try (now apply IH).
  unfold step_ok in Hsd.
  destruct (is_str (get entries (txt "type")) (txt "tool_calls")).
  - apply iterate_step in Hsd as (tcs & Hit & Hq).
    rewrite Hit. simpl. rewrite for_tool_calls_settle, Hq. now apply IH.
  - now apply IH.
Qed.

Lemma terminal_not_delta (v : json) :
  is_str v (txt "run.completed") || is_str v (txt "done") = true ->
  is_str v (txt "run.step.delta") = false.
Proof.
  intros H. apply orb_true_iff in H as [H|H];
    apply is_str_eq in H; subst; reflexivity.
Qed.

Lemma on_line_settle (l : line) (st : extractor) :
  line_ok l = true ->
  on_line l st =
  Return (settle st (observed l), if is_terminal l then Break else Continue).
Proof.
  destruct l as [| | |obj|why]; try reflexivity; [|discriminate].
  destruct obj as [| | | | | |obj]; try discriminate.
  unfold line_ok, observed, is_terminal, terminal_kind, has_data,
    step_details_of, on_line.
  destruct (get obj (txt "data")) as [| | | | | |data];
    try (rewrite andb_false_r; reflexivity).
  rewrite andb_true_r.
  destruct (is_str (get obj (txt "event")) (txt "run.step.delta")) eqn:D.
  - apply is_str_eq in D. rewrite D.
    change (is_str (JStr (txt "run.step.delta")) (txt "run.completed")
            || is_str (JStr (txt "run.step.delta")) (txt "done")) with false.
    unfold on_step_delta.
    destruct (get data (txt "delta")) as [| | | | | |delta]; try reflexivity.
    destruct (get_default delta (txt "step_details") (JList []));
      try reflexivity.
    unfold sequence_items. intros H.
    rewrite (for_step_details_settle _ _ H). reflexivity.
  - intros _. unfold bind.
    destruct (is_str (get obj (txt "event")) (txt "run.completed")
              || is_str (get obj (txt "event")) (txt "done")); reflexivity.
Qed.

Lemma read_stream_settle (lines : list line) (st : extractor) :
  forallb line_ok lines = true ->
  read_stream lines st = Return (settle st (captured lines)).
Proof.
  revert st. induction lines as [|l lines IH]; intros st H; [reflexivity|].
  simpl in H. apply andb_true_iff in H as [Hl Hrest].
  cbn [read_stream]. rewrite (on_line_settle _ _ Hl). cbn [bind].
  unfold captured. cbn [until_terminal].
  destruct (is_terminal l).
  - cbn [flat_map]. now rewrite app_nil_r.
  - cbn [flat_map]. rewrite settle_app. now apply IH.
Qed.

Lemma read_stream_holding (lines : list line) :
  forallb line_ok lines = true ->
  read_stream lines no_capture = Return (holding (last_call (captured lines))).
Proof.
  intros H. rewrite (read_stream_settle _ _ H), settle_last.
  destruct (last_call (captured lines)); reflexivity.
Qed.

Lemma run_streaming (lines : list line) :
  run_agent_stream_get_tool_args (streaming lines) =
  (st <- read_stream lines no_capture ;; finish st).
Proof. reflexivity. Qed.

(** A captured call has a non-empty name. *)
Lemma qualifying_named (tc : json) (c : tool_call) :
  qualifying tc = Some c -> truthy (call_name c) = true.
Proof.
  destruct tc; simpl; try discriminate.
  destruct (get entries (txt "args")); try discriminate.
  destruct (truthy (get entries (txt "name"))) eqn:T; try discriminate.
  intros [= <-]. exact T.
Qed.

Lemma keep_qualifying_named (tcs : list json) (c : tool_call) :
  In c (keep_qualifying tcs) -> truthy (call_name c) = true.
Proof.
  induction tcs as [|tc tcs IH]; simpl; [contradiction|].
  destruct (qualifying tc) eqn:Q; [|exact IH].
  intros [<-|H]; [now apply qualifying_named with tc|now apply IH].
Qed.

Lemma captured_named (lines : list line) (c : tool_call) :
  In c (captured lines) -> truthy (call_name c) = true.
Proof.
  unfold captured, observed. intros H.
  apply in_flat_map in H as (l & _ & H).
  apply in_flat_map in H as (sd & _ & H).
  now apply keep_qualifying_named with (step_tool_calls sd).
Qed.

Lemma last_call_in (calls : list tool_call) (c : tool_call) :
  last_call calls = Some c -> In c calls.
Proof.
  induction calls as [|c' calls IH]; simpl; [discriminate|].
  destruct (last_call calls) as [x|].
  - intros [= <-]. right. now apply IH.
  - intros [= <-]. now left.
Qed.

Lemma for_step_details_raises (sds : list json) (st : extractor) :
  forallb step_ok sds = false -> exists e, for_step_details sds st = Raise e.
Proof.
  revert st. induction sds as [|sd sds IH]; intros st H; [discriminate|].
  cbn [forallb] in H.
  destruct sd as [| | | | | |e]; try (apply IH; exact H).
  cbn [for_step_details]. unfold step_ok in H.
  destruct (is_str (get e (txt "type")) (txt "tool_calls"));
    [|apply IH; exact H].
  set (v := get_default e (txt "tool_calls") (JList [])) in *.
  destruct (negb (truthy v) || iterable v) eqn:S.
  - destruct (iterate_step v S) as (tcs & Hit & _).
    rewrite Hit. cbn [bind]. apply IH. exact H.
  - apply orb_false_iff in S as [T I].
    apply negb_false_iff in T. unfold py_or. rewrite T.
    exists TypeError. destruct v; try discriminate; reflexivity.
Qed.

Lemma on_line_raises (l : line) (st : extractor) :
  line_ok l = false -> exists e, on_line l st = Raise e.
Proof.
  destruct l as [| | |obj|why]; try discriminate;
    [|intros _; exists (raised why); reflexivity].
  destruct obj as [| | | | | |obj];
    try (intros _; exists AttributeError; reflexivity).
  unfold line_ok, step_details_of, on_line.
  destruct (get obj (txt "data")) as [| | | | | |data]; try discriminate.
  destruct (is_str (get obj (txt "event")) (txt "run.step.delta"));
    [|discriminate].
  unfold on_step_delta.
  destruct (get data (txt "delta")) as [| | | | | |delta]; try discriminate.
  destruct (get_default delta (txt "step_details") (JList []));
    try discriminate.
  unfold sequence_items. intros H.
  destruct (for_step_details_raises _ st H) as [e He].
  exists e. rewrite He. reflexivity.
Qed.

(** Whenever the loop ends, it holds what the last observed call left. *)
Lemma read_stream_returns (lines : list line) (st st' : extractor) :
  read_stream lines st = Return st' -> st' = settle st (captured lines).
Proof.
  revert st. induction lines as [|l lines IH]; intros st.
  - intros [= <-]. reflexivity.
  - cbn [read_stream]. destruct (line_ok l) eqn:Hl.
    + rewrite (on_line_settle _ _ Hl). cbn [bind].
      unfold captured. cbn [until_terminal].
      destruct (is_terminal l); cbn [flat_map].
      * rewrite app_nil_r. now intros [= <-].
      * rewrite settle_app. apply IH.
    + destruct (on_line_raises l st Hl) as [e He]. rewrite He. discriminate.
Qed.

Lemma format_completes (lines : list line) :
  forallb line_ok lines = true -> completes lines.
Proof.
  intros H. eexists. apply (read_stream_holding _ H).
Qed.

Lemma completes_holding (lines : list line) :
  completes lines ->
  read_stream lines no_capture = Return (holding (last_call (captured lines))).
Proof.
  intros [st H]. rewrite H. f_equal.
  rewrite (read_stream_returns _ _ H), settle_last.
  destruct (last_call (captured lines)); reflexivity.
Qed.

Lemma run_finish (lines : list line) :
  completes lines ->
  run_agent_stream_get_tool_args (streaming lines)
  = finish (holding (last_call (captured lines))).
Proof.
  intros H. rewrite run_streaming, (completes_holding H). reflexivity.
Qed.

(** ** C4: last write wins *)

(** C4. For every stream: whenever the loop ends, it holds exactly the
    last qualifying tool_calls entry in stream order (or nothing when
    there is none), whatever was captured before it; the loop does end
    for every stream in the external format; an entry that does not
    qualify leaves the current ToolCall as it is and raises nothing. *)
Theorem last_write_wins (lines : list line) :
  (forall st, read_stream lines no_capture = Return st ->
              st = holding (last_call (captured lines)))
  /\ (forallb line_ok lines = true ->
      read_stream lines no_capture
      = Return (holding (last_call (captured lines))))
  /\ (forall tc st, qualifying tc = None -> on_tool_call tc st = st).
Proof.
  split; [|split].
  - intros st H.
    assert (C : completes lines) by (now exists st).
    rewrite (completes_holding C) in H. now injection H.
  - apply read_stream_holding.
  - intros tc st Q. rewrite on_tool_call_qualifying, Q. reflexivity.
Qed.

(** The two-delta stream of the specification: the loop ends holding the
    second call, and the run result is built from it. *)
Lemma last_write_wins_two_deltas :
  read_stream two_deltas no_capture
  = Return {| tool_name := log_incident; tool_args := second_args |}
  /\ run_agent_stream_get_tool_args (streaming two_deltas)
     = Return (second_args ++ [(txt "_tool_name", log_incident)]).
Proof.
  split; [|reflexivity].
  rewrite (proj1 (proj2 (last_write_wins two_deltas)) eq_refl).
  reflexivity.
Defined.

(** ** C3: the run result *)

(** C3, as the code has it. For every stream whose run completes with a
    last captured ToolCall that has a non-empty argument mapping, the run
    returns that mapping with the entry [_tool_name] set to the call's
    name. *)
Theorem run_result_of_last_call (lines : list line) (c : tool_call) :
  completes lines ->
  last_call (captured lines) = Some c ->
  call_args c <> [] ->
  run_agent_stream_get_tool_args (streaming lines)
  = Return (dict_set (call_args c) (txt "_tool_name") (call_name c)).
Proof.
  intros Hok Hlast Hargs.
  rewrite (run_finish Hok), Hlast.
  cbn [holding]. unfold finish. cbn [tool_args tool_name].
  destruct (call_args c) as [|kv rest] eqn:E; [contradiction|].
  unfold py_or.
  now rewrite (captured_named lines c (last_call_in _ Hlast)).
Qed.

(** The end-to-end scenario: the synthetic entry is [_tool_name]. *)
Lemma run_result_of_scenario :
  run_agent_stream_get_tool_args (streaming scenario)
  = Return (bin7_args ++ [(txt "_tool_name", log_incident)]).
Proof.
  apply (@run_result_of_last_call scenario
           {| call_name := log_incident; call_args := bin7_args |}).
  - eexists. reflexivity.
  - reflexivity.
  - discriminate.
Defined.

(** The scenario's result is not the one written in the specification:
    it has no [tool_name] entry.  And a captured call with an empty
    argument mapping gives no result at all. *)
Lemma scenario_result_has_no_tool_name :
  run_agent_stream_get_tool_args (streaming scenario)
    <> Return scenario_result_as_specified
  /\ (exists d,
        run_agent_stream_get_tool_args (streaming scenario) = Return d
        /\ dict_lookup d (txt "tool_name") = None
        /\ dict_lookup d (txt "_tool_name") = Some log_incident)
  /\ last_call (captured empty_args_run)
     = Some {| call_name := log_incident; call_args := [] |}
  /\ run_agent_stream_get_tool_args (streaming empty_args_run)
     = Raise no_tool_args.
Proof.
  split; [|split; [|split; reflexivity]].
  - intros H. vm_compute in H. discriminate H.
  - eexists. split; [reflexivity|]. split; reflexivity.
Qed.

(** ** C5: extraction failure *)

(** C5, as the code has it. For every stream whose run reaches
    completion, the extraction error is raised exactly when the argument
    mapping the loop ends with is empty: no ToolCall was captured, or the
    last one captured has no arguments.  In particular a stream that
    captures nothing fails, and one whose last call has arguments returns
    a payload. *)
Theorem extraction_failure_iff_no_args (lines : list line) :
  completes lines ->
  (run_agent_stream_get_tool_args (streaming lines) = Raise no_tool_args
   <-> tool_args (holding (last_call (captured lines))) = [])
  /\ (captured lines = [] ->
      run_agent_stream_get_tool_args (streaming lines) = Raise no_tool_args)
  /\ (forall c, last_call (captured lines) = Some c -> call_args c <> [] ->
      exists payload,
        run_agent_stream_get_tool_args (streaming lines) = Return payload).
Proof.
  intros Hok.
  assert (R : run_agent_stream_get_tool_args (streaming lines)
              = finish (holding (last_call (captured lines))))
    by now apply run_finish.
  split; [|split].
  - rewrite R. unfold finish.
    destruct (tool_args (holding (last_call (captured lines)))).
    + split; reflexivity.
    + split; discriminate.
  - intros E. rewrite R, E. reflexivity.
  - intros c Hlast Hargs. rewrite R, Hlast.
    cbn [holding]. unfold finish. cbn [tool_args].
    destruct (call_args c); [contradiction|]. eexists. reflexivity.
Qed.

(** Only non-tool-call events and a terminal event: the run fails. *)
Lemma extraction_failure_without_tool_calls :
  completes [run_started; run_completed]
  /\ run_agent_stream_get_tool_args (streaming [run_started; run_completed])
     = Raise no_tool_args.
Proof.
  assert (C : completes [run_started; run_completed])
    by (eexists; reflexivity).
  split; [exact C|].
  apply (proj1 (proj2 (extraction_failure_iff_no_args C))).
  reflexivity.
Defined.

(** A ToolCall was captured, and the run fails all the same. *)
Lemma captured_call_without_args_fails :
  captured [step_delta [tool_call_entry (txt "log_incident") []];
            run_completed]
    = [{| call_name := log_incident; call_args := [] |}]
  /\ run_agent_stream_get_tool_args
       (streaming [step_delta [tool_call_entry (txt "log_incident") []];
                   run_completed])
     = Raise no_tool_args.
Proof. split; reflexivity. Qed.

(** ** C6: lines that do not parse *)

(** Reading goes past a part of the stream that ends without an
    exception and holds no terminal event. *)
Lemma read_stream_past (pre rest : list line) (st st' : extractor) :
  read_stream pre st = Return st' ->
  existsb is_terminal pre = false ->
  read_stream (pre ++ rest) st = read_stream rest st'.
Proof.
  revert st. induction pre as [|l pre IH]; intros st.
  - now intros [= <-] _.
  - cbn [read_stream existsb app]. intros H T.
    apply orb_false_iff in T as [Tl T].
    destruct (on_line l st) as [[st1 f]|e] eqn:E; [|discriminate].
    cbn [bind] in *. destruct f.
    + now apply IH.
    + destruct (line_ok l) eqn:Hl.
      * rewrite (on_line_settle _ _ Hl), Tl in E. discriminate.
      * destruct (on_line_raises l st Hl) as [e He].
        rewrite He in E. discriminate.
Qed.

Lemma read_stream_skips (lines : list line) (st : extractor) :
  read_stream (filter (fun l => negb (skipped l)) lines) st
  = read_stream lines st.
Proof.
  revert st. induction lines as [|l lines IH]; intros st; [reflexivity|].
  destruct l as [| | |obj|why]; cbn [filter skipped negb]; try apply IH;
    [|reflexivity].
  cbn [read_stream]. destruct (on_line (LineJson obj) st) as [[st' f]|e];
    [|reflexivity].
  cbn [bind]. destruct f; [apply IH|reflexivity].
Qed.

(** X27. What the [except json.JSONDecodeError] does drop: for every
    stream the run result is the result over the same stream with the
    [None] and blank lines and the lines on which [json.loads] raises
    [JSONDecodeError] removed; such a line leaves the current ToolCall
    as it is and reading goes on.  In particular one such line between
    two [run.step.delta] events leaves the second event's tool call as
    the result. *)
Theorem undecodable_lines_are_skipped :
  (forall lines,
     run_agent_stream_get_tool_args (streaming lines)
     = run_agent_stream_get_tool_args
         (streaming (filter (fun l => negb (skipped l)) lines)))
  /\ (forall l st, skipped l = true -> on_line l st = Return (st, Continue))
  /\ run_agent_stream_get_tool_args
       (streaming [first_delta; LineNotJson; second_delta])
     = Return (second_args ++ [(txt "_tool_name", log_incident)]).
Proof.
  split; [|split].
  - intros lines. rewrite !run_streaming, read_stream_skips. reflexivity.
  - intros l st H. destruct l; try reflexivity; discriminate.
  - reflexivity.
Qed.

(** C6, where the code departs from it. A line that does not parse is
    not always dropped: the [except] around [json.loads] names
    [JSONDecodeError] only, so a line of 5000 digits between two valid
    [run.step.delta] events ends the run with the [ValueError] that
    [json.loads] raises on it, and a line of brackets nested too deep
    with its [RecursionError]; the stream without the line gives the
    second event's tool call, which is what the claim has for the stream
    with it. *)
Theorem unparsable_line_is_fatal :
  run_agent_stream_get_tool_args
    (streaming [first_delta; digits_line; second_delta])
  = Raise ValueError
  /\ run_agent_stream_get_tool_args
       (streaming [first_delta; brackets_line; second_delta])
     = Raise RecursionError
  /\ run_agent_stream_get_tool_args (streaming [first_delta; second_delta])
     = Return (second_args ++ [(txt "_tool_name", log_incident)])
  /\ (forall pre post why st,
        read_stream pre no_capture = Return st ->
        existsb is_terminal pre = false ->
        run_agent_stream_get_tool_args
          (streaming (pre ++ LineUnread why :: post))
        = Raise (raised why)).
Proof.
  repeat split.
  intros pre post why st H T. rewrite run_streaming.
  erewrite read_stream_past; [|exact H|exact T].
  reflexivity.
Qed.

(** A line that holds JSON other than an object is not skipped either:
    the lookup of its event raises. *)
Remark non_object_line_raises :
  run_agent_stream_get_tool_args
    (streaming [first_delta; LineJson (JList []); second_delta])
  = Raise AttributeError.
Proof. reflexivity. Qed.

(** ** C7: terminal events *)

Lemma on_line_terminal (t : line) (st : extractor) :
  is_terminal t = true -> on_line t st = Return (st, Break).
Proof.
  unfold is_terminal, terminal_kind, has_data.
  destruct t as [| | |obj|why]; try discriminate.
  destruct obj as [| | | | | |obj]; try discriminate.
  cbn [on_line]. intros H. apply andb_true_iff in H as [K D].
  destruct (get obj (txt "data")); try discriminate.
  rewrite (terminal_not_delta _ K), K. reflexivity.
Qed.

Lemma read_stream_stops (pre post : list line) (t : line) (st : extractor) :
  is_terminal t = true ->
  read_stream (pre ++ t :: post) st = read_stream (pre ++ [t]) st.
Proof.
  intros T. revert st. induction pre as [|l pre IH]; intros st.
  - cbn [app read_stream]. rewrite (on_line_terminal _ st T). reflexivity.
  - cbn [app read_stream].
    destruct (on_line l st) as [[st' f]|e]; [|reflexivity].
    cbn [bind]. destruct f; [apply IH|reflexivity].
Qed.

(** C7, as the code has it. For every stream, an event whose kind is
    [run.completed] or [done] and whose data is a mapping ends the
    reading: the loop breaks on it with the current ToolCall unchanged,
    nothing after it is applied, and the run result is that of the
    prefix ending at it. *)
Theorem terminal_event_stops_reading (pre post : list line) (t : line) :
  is_terminal t = true ->
  (forall st, on_line t st = Return (st, Break))
  /\ run_agent_stream_get_tool_args (streaming (pre ++ t :: post))
     = run_agent_stream_get_tool_args (streaming (pre ++ [t])).
Proof.
  intros T. split.
  - intros st. now apply on_line_terminal.
  - rewrite !run_streaming, (read_stream_stops pre post t _ T). reflexivity.
Qed.

(** A delta after [done] is not applied. *)
Lemma terminal_event_stops_reading_done :
  run_agent_stream_get_tool_args
    (streaming ([first_delta] ++ done_event :: [second_delta]))
  = Return (first_args ++ [(txt "_tool_name", log_incident)]).
Proof.
  rewrite (proj2 (terminal_event_stops_reading
                    [first_delta] [second_delta] done_event eq_refl)).
  reflexivity.
Defined.

(** A [done] record without data does not end the reading: the delta
    after it is applied, and the result differs from that of the prefix
    ending at the [done] record. *)
Lemma done_without_data_does_not_stop :
  terminal_kind done_without_data = true
  /\ run_agent_stream_get_tool_args
       (streaming ([first_delta] ++ done_without_data :: [second_delta]))
     = Return (second_args ++ [(txt "_tool_name", log_incident)])
  /\ run_agent_stream_get_tool_args
       (streaming ([first_delta] ++ [done_without_data]))
     = Return (first_args ++ [(txt "_tool_name", log_incident)])
  /\ run_agent_stream_get_tool_args
       (streaming ([first_delta] ++ done_without_data :: [second_delta]))
     <> run_agent_stream_get_tool_args
          (streaming ([first_delta] ++ [done_without_data])).
Proof.
  split; [reflexivity|]. split; [reflexivity|]. split; [reflexivity|].
  intros H. vm_compute in H. discriminate H.
Qed.

(** * Properties of the dedup key *)

Lemma ascii_lower_idem (c : codepoint) :
  ascii_lower (ascii_lower c) = ascii_lower c.
Proof.
  unfold ascii_lower.
  destruct ((65 <=? c) && (c <=? 90))%N eqn:E; [|now rewrite E].
  apply andb_true_iff in E as [E1 E2].
  apply N.leb_le in E1, E2.
  destruct ((65 <=? c + 32) && (c + 32 <=? 90))%N eqn:F; [|reflexivity].
  apply andb_true_iff in F as [_ F]. apply N.leb_le in F. lia.
Qed.

Lemma map_ascii_lower_idem (s : pystr) :
  map ascii_lower (map ascii_lower s) = map ascii_lower s.
Proof.
  rewrite map_map. apply map_ext. intros c. apply ascii_lower_idem.
Qed.

(** The ASCII tables; see where [ascii_repr] is defined for the texts
    on which they are CPython's. *)
#[export] Instance ascii_tables : UnicodeData := {|
  lower := map ascii_lower;
  repr := ascii_repr;
  lower_ascii_case := map_ascii_lower_idem
|}.

Lemma hex_digit_lower_hex (x : N) :
  is_lower_hex (hex_digit (N.land x 15)) = true.
Proof.
  change 15%N with (N.ones 4). rewrite N.land_ones.
  assert (H : (x mod 2 ^ 4 < 16)%N) by (apply N.mod_lt; discriminate).
  generalize dependent (x mod 2 ^ 4)%N. intros n H.
  unfold hex_digit, is_lower_hex.
  destruct (N.ltb_spec n 10).
  - apply orb_true_iff. left. apply andb_true_iff.
    split; apply N.leb_le; lia.
  - apply orb_true_iff. right. apply andb_true_iff.
    split; apply N.leb_le; lia.
Qed.


Lemma hex_word_lower_hex (w : N) : forallb is_lower_hex (hex_word w) = true.
Proof.
  unfold hex_word. cbn [map forallb].
  now rewrite !hex_digit_lower_hex.
Qed.


Lemma hexdigest_lower_hex (data : list N) :
  forallb is_lower_hex (hexdigest data) = true.
Proof.
  unfold hexdigest. cbv zeta.
  now rewrite !forallb_app, !hex_word_lower_hex.
Qed.

Section KeyFacts.

Context {ucd : UnicodeData}.

Lemma canonical_lookup (args : dict) (f : pystr) :
  canonical args f = canonical_value (dict_lookup args f).
Proof.
  unfold canonical, canonical_value, get_default.
  destruct (dict_lookup args f); reflexivity.
Qed.

Lemma key_as_specified (args : dict) :
  make_work_order_key args = specified_key args.
Proof.
  unfold make_work_order_key, specified_key, key_text, key_fields.
  cbv zeta. rewrite !canonical_lookup. reflexivity.
Qed.

Lemma key_agrees (p q : dict) :
  (forall f, In f key_fields ->
             canonical_value (dict_lookup p f)
             = canonical_value (dict_lookup q f)) ->
  make_work_order_key p = make_work_order_key q.
Proof.
  intros H. rewrite !key_as_specified. unfold specified_key, key_text.
  rewrite (map_ext_in _ _ _ H). reflexivity.
Qed.

End KeyFacts.

(** ** C2: the key formula *)


(** ** C8: case and whitespace *)

Lemma is_space_range (c : codepoint) :
  is_space c = true -> (c <= 32 \/ 133 <= c)%N.
Proof.
  unfold is_space. intros H.
  repeat (apply orb_true_iff in H as [H|H]);
    repeat (apply andb_true_iff in H as [? H]);
    repeat match goal with
           | K : (_ <=? _)%N = true |- _ => apply N.leb_le in K
           | K : (_ =? _)%N = true |- _ => apply N.eqb_eq in K
           end; lia.
Qed.

Lemma is_space_ascii_lower (c : codepoint) :
  is_space (ascii_lower c) = is_space c.
Proof.
  unfold ascii_lower.
  destruct ((65 <=? c) && (c <=? 90))%N eqn:E; [|reflexivity].
  apply andb_true_iff in E as [E1 E2]. apply N.leb_le in E1, E2.
  destruct (is_space (c + 32)%N) eqn:A; [apply is_space_range in A; lia|].
  destruct (is_space c) eqn:B; [apply is_space_range in B; lia|].
  reflexivity.
Qed.

Lemma lstrip_spaces (l x : pystr) :
  forallb is_space l = true -> lstrip (l ++ x) = lstrip x.
Proof.
  induction l as [|c l IH]; simpl; [reflexivity|].
  intros H. apply andb_true_iff in H as [Hc Hl]. rewrite Hc. now apply IH.
Qed.

Lemma lstrip_app (c r : pystr) :
  lstrip c <> [] -> lstrip (c ++ r) = lstrip c ++ r.
Proof.
  induction c as [|a c IH]; simpl; [contradiction|].
  destruct (is_space a); [exact IH|reflexivity].
Qed.

Lemma lstrip_nil (c : pystr) : lstrip c = [] -> forallb is_space c = true.
Proof.
  induction c as [|a c IH]; simpl; [reflexivity|].
  destruct (is_space a); [exact IH|discriminate].
Qed.

Lemma forallb_rev {A} (f : A -> bool) (l : list A) :
  forallb f (rev l) = forallb f l.
Proof.
  induction l as [|a l IH]; simpl; [reflexivity|].
  rewrite forallb_app, IH. simpl. rewrite andb_true_r. apply andb_comm.
Qed.

Lemma rstrip_spaces (x r : pystr) :
  forallb is_space r = true -> rstrip (x ++ r) = rstrip x.
Proof.
  intros H. unfold rstrip. rewrite rev_app_distr, lstrip_spaces;
    [reflexivity|now rewrite forallb_rev].
Qed.

Lemma strip_padded (l c r : pystr) :
  forallb is_space l = true -> forallb is_space r = true ->
  strip (l ++ c ++ r) = strip c.
Proof.
  intros Hl Hr. unfold strip. rewrite (lstrip_spaces _ _ Hl).
  destruct (lstrip c) as [|a c'] eqn:E.
  - rewrite <- (app_nil_r (c ++ r)), lstrip_spaces; [reflexivity|].
    rewrite forallb_app, Hr, (lstrip_nil _ E). reflexivity.
  - rewrite lstrip_app by (rewrite E; discriminate).
    rewrite E. now apply rstrip_spaces.
Qed.

Lemma Forall2_rev_both {A B} (R : A -> B -> Prop) (l : list A)
    (l' : list B) :
  Forall2 R l l' -> Forall2 R (rev l) (rev l').
Proof.
  induction 1 as [|a b l l' Hab _ IH]; cbn [rev]; [constructor|].
  apply Forall2_app; [exact IH|]. constructor; [exact Hab|constructor].
Qed.

Section Variants.

Context {ucd : UnicodeData}.

Lemma same_letter_space (a b : codepoint) :
  same_letter a b -> is_space a = is_space b.
Proof.
  intros [->|[E|(Ha & Hb & _)]]; [reflexivity| |congruence].
  now rewrite <- (is_space_ascii_lower a), E, is_space_ascii_lower.
Qed.

Lemma same_letter_folds (a b : codepoint) : same_letter a b -> folds a b.
Proof.
  intros [->|[E|(_ & _ & F)]]; [intros pre post; reflexivity| |exact F].
  intros pre post.
  rewrite <- (lower_ascii_case (pre ++ a :: post)),
          <- (lower_ascii_case (pre ++ b :: post)).
  rewrite !map_app. cbn [map]. now rewrite E.
Qed.

Lemma lower_case_variant (c c' : pystr) :
  case_variant c c' -> forall pre, lower (pre ++ c) = lower (pre ++ c').
Proof.
  induction 1 as [|a b c c' Hab _ IH]; intros pre; [reflexivity|].
  rewrite (same_letter_folds Hab pre c).
  change (pre ++ b :: c) with (pre ++ [b] ++ c).
  change (pre ++ b :: c') with (pre ++ [b] ++ c').
  rewrite !app_assoc. apply IH.
Qed.

Lemma lstrip_case_variant (c c' : pystr) :
  case_variant c c' -> case_variant (lstrip c) (lstrip c').
Proof.
  induction 1 as [|a b c c' Hab H IH]; cbn [lstrip]; [constructor|].
  rewrite (same_letter_space Hab).
  destruct (is_space b); [exact IH|]. constructor; assumption.
Qed.

Lemma strip_case_variant (c c' : pystr) :
  case_variant c c' -> case_variant (strip c) (strip c').
Proof.
  intros H. unfold strip, rstrip.
  apply Forall2_rev_both, lstrip_case_variant, Forall2_rev_both.
  now apply lstrip_case_variant.
Qed.

Lemma lower_strip_variant (s t : pystr) :
  case_ws_variant s t -> lower (strip s) = lower (strip t).
Proof.
  intros (l & r & l' & r' & c & c' & -> & -> & Hl & Hr & Hl' & Hr' & E).
  rewrite !strip_padded by assumption.
  apply (lower_case_variant (strip_case_variant E) []).
Qed.

Lemma canonical_value_variant (v w : option json) :
  field_variant v w -> canonical_value v = canonical_value w.
Proof.
  intros H. unfold canonical_value. now apply lower_strip_variant.
Qed.

End Variants.

(** The case mapping of the code points below 256, as [str.lower] has
    it there: [A]..[Z] and the capital letters of Latin-1. *)
Definition latin1_lower (c : codepoint) : codepoint :=
  if ((65 <=? c) && (c <=? 90)
      || (192 <=? c) && (c <=? 214) || (216 <=? c) && (c <=? 222))%N
  then (c + 32)%N else c.

Lemma latin1_lower_ascii (s : pystr) :
  map latin1_lower (map ascii_lower s) = map latin1_lower s.
Proof.
  rewrite map_map. apply map_ext. intros c.
  unfold ascii_lower.
  destruct (N.leb_spec 65 c); destruct (N.leb_spec c 90); cbn [andb];
    unfold latin1_lower;
  repeat (match goal with
          | |- context [(?x <=? ?y)%N] => destruct (N.leb_spec x y)
          end; cbn [andb orb]);
    try reflexivity; lia.
Qed.

(** The tables with that case mapping, to run the definitions on the
    Latin-1 letters below. *)
Definition latin1_tables : UnicodeData := {|
  lower := map latin1_lower;
  repr := ascii_repr;
  lower_ascii_case := latin1_lower_ascii
|}.

Lemma latin1_folds (a b : codepoint) :
  latin1_lower a = latin1_lower b -> @folds latin1_tables a b.
Proof.
  intros E pre post. cbn [lower latin1_tables].
  rewrite !map_app. cbn [map]. now rewrite E.
Qed.

(** C8, as the code has it. For every pair of payloads in which, for
    each of asset, incident_type, severity, timestamp and summary, the
    texts of the two values (what [str] prints; empty for a field the
    payload lacks) differ only in the whitespace around them and in the
    case of letters whose forms [str.lower] does not tell apart, as it
    does not for any ASCII letter, the key is the same. *)
Theorem key_ignores_case_and_outer_whitespace {ucd : UnicodeData}
    (p q : dict) :
  (forall f, In f key_fields ->
             field_variant (dict_lookup p f) (dict_lookup q f)) ->
  make_work_order_key p = make_work_order_key q.
Proof.
  intros H. apply key_agrees. intros f Hf.
  apply canonical_value_variant. now apply H.
Qed.

Definition padded_bin7 : dict :=
  [(txt "asset", JStr (txt "  Bin 7 ")); (txt "severity", JStr (txt "p2"));
   (txt "location", JStr (txt "North yard"))].

Definition shouted_bin7 : dict :=
  [(txt "severity", JStr (txt "P2 ")); (txt "asset", JStr (txt "BIN 7"))].

Ltac same_text :=
  exists [], [], [], [], [], []; repeat split; constructor.

(** [  Bin 7 ] and [BIN 7], [p2] and [P2 ]: one key; and so for the
    accented letter, under the Latin-1 case mapping. *)
Lemma key_ignores_case_and_outer_whitespace_bin7 :
  make_work_order_key padded_bin7 = make_work_order_key shouted_bin7
  /\ @make_work_order_key latin1_tables padded_cafe
     = @make_work_order_key latin1_tables shouted_cafe.
Proof.
  split.
  - apply (@key_ignores_case_and_outer_whitespace ascii_tables
             padded_bin7 shouted_bin7).
    intros f Hf. cbn [key_fields In] in Hf.
    destruct Hf as [<-|[<-|[<-|[<-|[<-|[]]]]]]; try same_text.
    + exists (txt "  "), (txt " "), [], [], (txt "Bin 7"), (txt "BIN 7").
      repeat split.
      repeat (constructor; [right; left; reflexivity|]). constructor.
    + exists [], [], [], (txt " "), (txt "p2"), (txt "P2").
      repeat split.
      repeat (constructor; [right; left; reflexivity|]). constructor.
  - apply (@key_ignores_case_and_outer_whitespace latin1_tables
             padded_cafe shouted_cafe).
    intros f Hf. cbn [key_fields In] in Hf.
    destruct Hf as [<-|[<-|[<-|[<-|[<-|[]]]]]]; try same_text.
    exists (txt " "), (txt "  "), [], [],
           (txt "Caf" ++ [233%N] ++ txt " 7"),
           (txt "CAF" ++ [201%N] ++ txt " 7").
    repeat split.
    repeat (constructor;
            [first [ right; left; reflexivity
                   | right; right; repeat split;
                     apply latin1_folds; reflexivity ]|]).
    constructor.
Defined.

(** Where the claim fails.  Whitespace inside a value is kept: [Bin 7]
    and [Bin7] differ only in whitespace and have different keys.  And
    case is told apart where [str.lower] does so: the long s, code point
    383, is a lowercase letter whose capital is [S], so [SILO] is the
    upper case of the asset written with it, yet [str.lower] leaves the
    long s as it is (as these tables do) and gives [silo] for [SILO]:
    different keys.  The digests are those of the four joined texts. *)
Lemma inner_whitespace_and_case_change_the_key :
  make_work_order_key [(txt "asset", JStr (txt "Bin 7"))]
  = Return (txt "10b6b272b3b23de013418cf492d36b1f9b56b0db1c39465dc506c5f1d7a8467c")
  /\ make_work_order_key [(txt "asset", JStr (txt "Bin7"))]
     = Return (txt "a2f2072ea51d07efc30413c9a31856d337655d383cfe2d178f6d12fc9ada841f")
  /\ make_work_order_key [(txt "asset", JStr (txt "Bin 7"))]
     <> make_work_order_key [(txt "asset", JStr (txt "Bin7"))]
  /\ make_work_order_key [(txt "asset", JStr (383%N :: txt "ilo"))]
     = Return (txt "81fcbc3a98eb2d386dda38853d835b93b4a733b8de93df119892b1968efc3dc2")
  /\ make_work_order_key [(txt "asset", JStr (txt "SILO"))]
     = Return (txt "b5ea00c23533a39623b9170dc9310afc2b11a432f6299971891a9d5ecaec2a2b")
  /\ make_work_order_key [(txt "asset", JStr (383%N :: txt "ilo"))]
     <> make_work_order_key [(txt "asset", JStr (txt "SILO"))].
Proof.
  repeat split; try (vm_compute; reflexivity);
    intros H; vm_compute in H; discriminate H.
Qed.

(** * Properties of the store *)

Lemma ascii_encodable (s : pystr) :
  forallb (fun c => (c <? 128)%N) s = true -> utf8_encode s = Some s.
Proof.
  induction s as [|c s IH]; simpl; [reflexivity|].
  intros H. apply andb_true_iff in H as [Hc Hs].
  unfold utf8_encode_cp. rewrite Hc, (IH Hs). reflexivity.
Qed.

Lemma lower_hex_encodable (s : pystr) :
  forallb is_lower_hex s = true -> encodable s = true.
Proof.
  intros H. unfold encodable. rewrite ascii_encodable; [reflexivity|].
  apply forallb_forall. intros c Hc.
  apply (proj1 (forallb_forall _ _) H) in Hc.
  unfold is_lower_hex in Hc. apply N.ltb_lt.
  apply orb_true_iff in Hc as [Hc|Hc];
    apply andb_true_iff in Hc as [_ Hc]; apply N.leb_le in Hc; lia.
Qed.

Lemma returns_inv {A} (r : result A) :
  returns r = true -> exists a, r = Return a.
Proof. destruct r; [now eexists|discriminate]. Qed.

Lemma key_taken_app (key : pystr) (rows more : list work_order) :
  key_taken key (rows ++ more) = key_taken key rows || key_taken key more.
Proof. apply existsb_app. Qed.

Lemma max_rowid_nonneg (rows : list work_order) : (0 <= max_rowid rows)%Z.
Proof.
  unfold max_rowid. induction rows as [|r rows IH]; simpl; lia.
Qed.

Lemma max_rowid_app (rows more : list work_order) :
  max_rowid (rows ++ more) = Z.max (max_rowid rows) (max_rowid more).
Proof.
  pose proof (max_rowid_nonneg more) as H. unfold max_rowid in *.
  induction rows as [|r rows IH]; simpl; [lia|]. rewrite IH. lia.
Qed.

Lemma no_record_for (key : pystr) (rows : list work_order) :
  key_taken key rows = false ->
  filter (fun r => Text.eqb (work_order_key r) key) rows = [].
Proof.
  induction rows as [|r rows IH]; simpl; [reflexivity|].
  intros H. apply orb_false_iff in H as [Hr Hrows].
  rewrite Hr. now apply IH.
Qed.

Lemma last_rowid_with_row (conn : connection) (rows : list work_order)
    (row : work_order) :
  last_rowid (with_row conn rows row)
  = Z.max (rowid row) (Z.max (max_rowid rows) (Z.max (rowid row) 0)).
Proof.
  unfold last_rowid, with_row.
  cbn [file work_orders work_orders_seq table_or_empty].
  now rewrite max_rowid_app.
Qed.

Section StoreFacts.

Context {ucd : UnicodeData}.

Lemma key_encodable (args : dict) (key : pystr) :
  make_work_order_key args = Return key -> bind_text key = Return (SqlText key).
Proof.
  unfold make_work_order_key. cbv zeta.
  destruct (utf8_encode _); [|discriminate].
  intros [= <-]. unfold bind_text.
  now rewrite (lower_hex_encodable _ (hexdigest_lower_hex _)).
Qed.

(** What an upsert does once the statement reaches the constraints. *)
Lemma upsert_cases (conn : connection) (uid : Z) (args : dict) (now : pystr)
    (key : pystr) (rows : list work_order) (us : list user) :
  make_work_order_key args = Return key ->
  prepare_insert conn = Return (rows, us) ->
  storable uid args now = true ->
  (Z.max (work_orders_seq (file conn)) (max_rowid rows) < largest_rowid)%Z ->
  upsert_work_order conn uid args now =
  if key_taken key rows || (foreign_keys conn && negb (user_known uid us))
  then Return (Duplicate, conn)
  else Return (Inserted,
               with_row conn rows
                 (new_row (Z.max (work_orders_seq (file conn))
                                 (max_rowid rows) + 1) key uid args now)).
Proof.
  intros Hkey Hprep Hst Hroom.
  unfold upsert_work_order. rewrite Hkey. cbn [bind].
  rewrite Hprep. cbn [bind fst snd]. rewrite (key_encodable _ Hkey).
  cbn [bind].
  unfold storable, payload_columns in Hst. cbn [forallb] in Hst.
  unfold new_row, column_of, with_row.
  repeat match goal with
         | H : _ && _ = true |- _ => apply andb_true_iff in H; destruct H
         end.
  repeat match goal with
         | H : returns ?r = true |- _ =>
             let v := fresh "v" in
             destruct (returns_inv _ H) as [v ->]; clear H
         end.
  cbn [bind bound rowid]. unfold insert_work_order.
  destruct (Z.leb_spec largest_rowid
              (Z.max (work_orders_seq (file conn)) (max_rowid rows)));
    [lia|].
  destruct (key_taken key rows); [reflexivity|]. cbn [orb].
  destruct (foreign_keys conn && negb (user_known uid us)); reflexivity.
Qed.

(** A Duplicate outcome leaves the store as it was. *)
Lemma duplicate_untouched (conn conn' : connection) (uid : Z) (args : dict)
    (now : pystr) :
  upsert_work_order conn uid args now = Return (Duplicate, conn') ->
  conn' = conn.
Proof.
  unfold upsert_work_order, bind.
  repeat match goal with
         | |- context [match ?x with _ => _ end] =>
             destruct x; try discriminate
         end.
  now intros [= <-].
Qed.

End StoreFacts.

Section StoreSequences.

Context {ucd : UnicodeData}.

(** What an Inserted outcome tells. *)
Lemma inserted_inv (conn conn' : connection) (uid : Z) (args : dict)
    (now : pystr) :
  upsert_work_order conn uid args now = Return (Inserted, conn') ->
  exists key rows us,
    make_work_order_key args = Return key
    /\ prepare_insert conn = Return (rows, us)
    /\ key_taken key rows = false
    /\ conn' = with_row conn rows
                 (new_row (Z.max (work_orders_seq (file conn))
                                 (max_rowid rows) + 1) key uid args now).
Proof.
  unfold upsert_work_order.
  destruct (make_work_order_key args) as [key|] eqn:Hkey; [|discriminate].
  cbn [bind].
  destruct (prepare_insert conn) as [[rows us]|] eqn:Hprep; [|discriminate].
  cbn [bind fst snd]. unfold new_row, column_of, with_row.
  destruct (bind_text key); [|discriminate]. cbn [bind].
  destruct (bind_text now); [|discriminate]. cbn [bind].
  destruct (bind_int uid); [|discriminate]. cbn [bind].
  destruct (bind_param (get args (txt "asset"))); [|discriminate].
  cbn [bind].
  destruct (bind_param (get args (txt "incident_type"))); [|discriminate].
  cbn [bind].
  destruct (bind_param (get args (txt "severity"))); [|discriminate].
  cbn [bind].
  destruct (bind_param (get args (txt "location"))); [|discriminate].
  cbn [bind].
  destruct (bind_param (get args (txt "timestamp"))); [|discriminate].
  cbn [bind].
  destruct (bind_param (get args (txt "summary"))); [|discriminate].
  cbn [bind].
  destruct (bind_text (dumps (JDict args))); [|discriminate].
  cbn [bind bound]. unfold insert_work_order.
  destruct (largest_rowid <=? _)%Z; [discriminate|].
  destruct (key_taken key rows) eqn:Htaken; [discriminate|].
  destruct (foreign_keys conn && negb (user_known uid us)); [discriminate|].
  cbn [bind]. intros [= <-].
  exists key, rows, us. repeat split. exact Htaken.
Qed.

Lemma prepare_with_row (conn : connection) (rows : list work_order)
    (us : list user) (row : work_order) :
  prepare_insert conn = Return (rows, us) ->
  prepare_insert (with_row conn rows row) = Return (rows ++ [row], us).
Proof.
  unfold prepare_insert, with_row. cbn [file work_orders users foreign_keys].
  destruct (work_orders (file conn)); [|discriminate].
  destruct (users (file conn)).
  - now intros [= _ <-].
  - destruct (foreign_keys conn); [discriminate|]. now intros [= _ <-].
Qed.

Lemma key_taken_new_row (rows : list work_order) (i : Z) (key : pystr)
    (uid : Z) (args : dict) (now : pystr) :
  key_taken key (rows ++ [new_row i key uid args now]) = true.
Proof.
  rewrite key_taken_app. unfold key_taken at 2. cbn [existsb new_row
    work_order_key]. rewrite eqb_refl. apply orb_true_iff. right. reflexivity.
Qed.

(** After an insert, a payload with the same key is a duplicate. *)
Lemma duplicate_after_insert (conn conn' : connection) (uid uid' : Z)
    (p q : dict) (t1 t2 : pystr) :
  upsert_work_order conn uid p t1 = Return (Inserted, conn') ->
  make_work_order_key q = make_work_order_key p ->
  storable uid' q t2 = true ->
  (last_rowid conn' < largest_rowid)%Z ->
  upsert_work_order conn' uid' q t2 = Return (Duplicate, conn').
Proof.
  intros Hins Hkeys Hst Hroom.
  destruct (inserted_inv _ _ _ _ Hins) as (key & rows & us & Hkey & Hprep
                                           & Htaken & ->).
  rewrite Hkey in Hkeys.
  erewrite upsert_cases;
    [|exact Hkeys|apply prepare_with_row; exact Hprep|exact Hst|exact Hroom].
  now rewrite key_taken_new_row.
Qed.

End StoreSequences.

(** The key of the scenario's payload, under the ASCII tables. *)
Definition bin7_key : pystr :=
  Eval vm_compute in
    match make_work_order_key bin7_args with
    | Return k => k
    | Raise _ => []
    end.

(** ** C1: upserting twice *)

(** C1, as the code has it. For every payload whose key is computed and
    whose bound values sqlite3 takes, and every initialised store that
    holds no record under that key, knows the creator when foreign keys
    are enforced, and has rowids left: the first upsert is Inserted, the
    second is Duplicate, and the store then holds exactly one record
    under the key, the first writer's, with the first call's clock text
    and the payload's six columns as their [TEXT] affinity stores them.
    Whatever the payload and the store, a Duplicate outcome leaves the
    store as it was. *)
Theorem upsert_twice {ucd : UnicodeData} (conn : connection) (uid : Z)
    (args : dict) (t1 t2 key : pystr) (rows : list work_order)
    (us : list user) :
  make_work_order_key args = Return key ->
  work_orders (file conn) = Some rows ->
  users (file conn) = Some us ->
  storable uid args t1 = true ->
  storable uid args t2 = true ->
  key_taken key rows = false ->
  (foreign_keys conn = true -> user_known uid us = true) ->
  (last_rowid conn + 1 < largest_rowid)%Z ->
  exists conn',
    upsert_work_order conn uid args t1 = Return (Inserted, conn')
    /\ upsert_work_order conn' uid args t2 = Return (Duplicate, conn')
    /\ records_for key conn'
       = [new_row (last_rowid conn + 1) key uid args t1]
    /\ (forall c u a t c',
          upsert_work_order c u a t = Return (Duplicate, c') -> c' = c).
Proof.
  intros Hkey Hrows Hus Hst1 Hst2 Htaken Hfk Hroom.
  assert (Hprep : prepare_insert conn = Return (rows, us))
    by (unfold prepare_insert; now rewrite Hrows, Hus).
  assert (HL : last_rowid conn
               = Z.max (work_orders_seq (file conn)) (max_rowid rows))
    by (unfold last_rowid; now rewrite Hrows).
  assert (Hfirst : upsert_work_order conn uid args t1
                   = Return (Inserted,
                             with_row conn rows
                               (new_row (last_rowid conn + 1) key uid args t1))).
  { rewrite (upsert_cases conn uid args t1 Hkey Hprep Hst1) by lia.
    rewrite Htaken, HL. cbn [orb].
    destruct (foreign_keys conn); [|reflexivity].
    now rewrite (Hfk eq_refl). }
  eexists. split; [exact Hfirst|]. split; [|split].
  - eapply duplicate_after_insert;
      [exact Hfirst|reflexivity|exact Hst2|].
    rewrite last_rowid_with_row. cbn [new_row rowid].
    pose proof (max_rowid_nonneg rows). lia.
  - unfold records_for, with_row.
    cbn [file work_orders table_or_empty].
    rewrite filter_app, (no_record_for _ _ Htaken).
    cbn [filter new_row work_order_key app]. now rewrite eqb_refl.
  - intros c u a t c'. apply duplicate_untouched.
Qed.

(** The scenario's payload, twice, into a store that holds the default
    user and no work order. *)
Lemma upsert_twice_scenario :
  exists conn',
    upsert_work_order ready_store 1 bin7_args noon = Return (Inserted, conn')
    /\ upsert_work_order conn' 1 bin7_args later = Return (Duplicate, conn')
    /\ records_for bin7_key conn' = [new_row 1 bin7_key 1 bin7_args noon].
Proof.
  destruct (@upsert_twice ascii_tables ready_store 1 bin7_args noon later
              bin7_key [] [default_user])
    as (conn' & H1 & H2 & H3 & _).
  - vm_compute. reflexivity.
  - reflexivity.
  - reflexivity.
  - vm_compute. reflexivity.
  - vm_compute. reflexivity.
  - reflexivity.
  - reflexivity.
  - vm_compute. reflexivity.
  - exists conn'. split; [exact H1|]. split; [exact H2|exact H3].
Defined.

(** The record of a payload with numbers in its columns holds them as
    texts, as the columns are declared: the integer by its digits, the
    bool as 1, the float as the text SQLite prints for it, and a field
    the payload lacks as NULL. *)
Remark numbers_are_stored_as_text :
  exists conn' row,
    upsert_work_order ready_store 1 counted noon = Return (Inserted, conn')
    /\ work_orders (file conn') = Some [row]
    /\ row = new_row 1 (work_order_key row) 1 counted noon
    /\ asset row = StoredText (txt "5")
    /\ severity row = StoredText (txt "1")
    /\ summary row = StoredRealText (txt "1.5")
    /\ location row = StoredNull.
Proof.
  eexists. eexists. split; [vm_compute; reflexivity|].
  repeat split.
Qed.

(** Two payloads and stores for which the first upsert is not Inserted:
    an asset that is a list is refused by sqlite3 and the call raises;
    with foreign keys enforced and the creator unknown the first call is
    already Duplicate, and no record is stored under the key. *)
Lemma first_upsert_is_not_always_inserted :
  upsert_work_order ready_store 1 listed_asset noon = Raise ProgrammingError
  /\ upsert_work_order (db_init (db_connect empty_file)) 1 bin7_args noon
     = Return (Duplicate, db_init (db_connect empty_file))
  /\ records_for bin7_key (db_init (db_connect empty_file)) = [].
Proof.
  split; [vm_compute; reflexivity|].
  split; [vm_compute; reflexivity|reflexivity].
Qed.

(** ** C10: Duplicate on every integrity violation *)

(** C10. For every upsert that reaches the constraints of an initialised
    store, a taken key and, with foreign keys enforced, an unknown
    creator both give Duplicate with the store left as it was; in the
    second case, when the key was not taken, no record is stored under
    the computed key although the outcome is Duplicate. *)
Theorem duplicate_on_integrity_violation {ucd : UnicodeData}
    (conn : connection) (uid : Z) (args : dict) (now key : pystr)
    (rows : list work_order) (us : list user) :
  make_work_order_key args = Return key ->
  work_orders (file conn) = Some rows ->
  users (file conn) = Some us ->
  storable uid args now = true ->
  (last_rowid conn < largest_rowid)%Z ->
  key_taken key rows = true
  \/ (foreign_keys conn = true /\ user_known uid us = false) ->
  upsert_work_order conn uid args now = Return (Duplicate, conn)
  /\ (key_taken key rows = false -> records_for key conn = []).
Proof.
  intros Hkey Hrows Hus Hst Hroom Hviol.
  assert (Hprep : prepare_insert conn = Return (rows, us))
    by (unfold prepare_insert; now rewrite Hrows, Hus).
  split.
  - rewrite (upsert_cases conn uid args now Hkey Hprep Hst)
      by (unfold last_rowid in Hroom; now rewrite Hrows in Hroom).
    destruct Hviol as [->|[-> ->]]; [reflexivity|].
    now rewrite orb_true_r.
  - intros Htaken. unfold records_for. rewrite Hrows.
    now apply no_record_for.
Qed.

(** The store as [db_connect] and [db_init] leave a new file, with no
    user in it: Duplicate, and nothing under the key. *)
Lemma duplicate_without_record :
  upsert_work_order (db_init (db_connect empty_file)) 1 bin7_args noon
  = Return (Duplicate, db_init (db_connect empty_file))
  /\ records_for bin7_key (db_init (db_connect empty_file)) = [].
Proof.
  destruct (@duplicate_on_integrity_violation ascii_tables
              (db_init (db_connect empty_file)) 1 bin7_args noon bin7_key
              [] [])
    as [H1 H2].
  - vm_compute. reflexivity.
  - reflexivity.
  - reflexivity.
  - vm_compute. reflexivity.
  - vm_compute. reflexivity.
  - right. split; reflexivity.
  - split; [exact H1|]. apply H2. reflexivity.
Defined.

(** ** C9: fields outside the key *)

(** C9, as the code has it. For every pair of payloads that agree on
    asset, incident_type, severity, timestamp and summary, whatever their
    other fields, the key is the same; and once the first is Inserted, an
    upsert of the second that reaches the constraints (sqlite3 takes
    every value it binds, and a rowid is left) is Duplicate and leaves
    the store as it was. *)
Theorem key_ignores_other_fields {ucd : UnicodeData} (p q : dict) :
  (forall f, In f key_fields -> dict_lookup p f = dict_lookup q f) ->
  make_work_order_key p = make_work_order_key q
  /\ (forall conn conn' uid uid' t1 t2,
        upsert_work_order conn uid p t1 = Return (Inserted, conn') ->
        storable uid' q t2 = true ->
        (last_rowid conn' < largest_rowid)%Z ->
        upsert_work_order conn' uid' q t2 = Return (Duplicate, conn')).
Proof.
  intros H.
  assert (K : make_work_order_key p = make_work_order_key q).
  { apply key_agrees. intros f Hf. now rewrite (H f Hf). }
  split; [exact K|].
  intros conn conn' uid uid' t1 t2 Hins Hst Hroom.
  eapply duplicate_after_insert;
    [exact Hins|symmetry; exact K|exact Hst|exact Hroom].
Qed.

(** Two reports of the same incident with other locations, hypotheses
    and actions: one key, and the second is a duplicate. *)
Lemma key_ignores_other_fields_bin7 :
  make_work_order_key bin7_north = make_work_order_key bin7_south
  /\ exists conn',
       upsert_work_order ready_store 1 bin7_north noon
       = Return (Inserted, conn')
       /\ upsert_work_order conn' 1 bin7_south later
          = Return (Duplicate, conn').
Proof.
  destruct (@key_ignores_other_fields ascii_tables bin7_north bin7_south)
    as [K D].
  - intros f Hf. cbn [key_fields In] in Hf.
    destruct Hf as [<-|[<-|[<-|[<-|[<-|[]]]]]]; reflexivity.
  - split; [exact K|].
    eexists. split; [vm_compute; reflexivity|].
    apply (D ready_store _ 1%Z 1%Z noon later).
    + vm_compute. reflexivity.
    + vm_compute. reflexivity.
    + vm_compute. reflexivity.
Defined.

(** Two payloads that differ only in [location], the second giving a
    list of places: the keys are equal, yet after the first is Inserted
    the second is not treated as a duplicate; sqlite3 refuses to bind the
    list and the upsert raises before the statement is run. *)
Lemma listed_location_is_not_a_duplicate :
  (forall f, f <> txt "location" ->
             dict_lookup bin7_north f = dict_lookup bin7_listed f)
  /\ make_work_order_key bin7_north = make_work_order_key bin7_listed
  /\ exists conn',
       upsert_work_order ready_store 1 bin7_north noon
       = Return (Inserted, conn')
       /\ upsert_work_order conn' 1 bin7_listed later
          = Raise ProgrammingError.
Proof.
  split; [|split].
  - intros f Hf. unfold bin7_listed.
    now rewrite dict_lookup_set_other.
  - vm_compute. reflexivity.
  - eexists. split; vm_compute; reflexivity.
Qed.

(** * Further properties of the run *)

(** A record the loop passes over: its data is no mapping, or its kind
    is neither [run.step.delta] nor a terminal one. *)
Definition ignorable (l : line) : bool :=
  match l with
  | LineJson (JDict obj) =>
      negb (has_data l)
      || negb (is_str (get obj (txt "event")) (txt "run.step.delta")
               || terminal_kind l)
  | _ => false
  end.

Definition is_object (v : json) : bool :=
  match v with
  | JDict _ => true
  | _ => false
  end.

Lemma read_stream_append_terminal (lines : list line) (t : line)
    (st : extractor) :
  is_terminal t = true ->
  read_stream (lines ++ [t]) st = read_stream lines st.
Proof.
  intros T. revert st. induction lines as [|l lines IH]; intros st.
  - cbn [app read_stream]. now rewrite (on_line_terminal _ st T).
  - cbn [app read_stream].
    destruct (on_line l st) as [[st' f]|e]; [|reflexivity].
    cbn [bind]. destruct f; [apply IH|reflexivity].
Qed.

(** X1. The end of the stream is a completion like any other: for every
    stream, one more terminal event at its end changes nothing of the
    run's outcome, be it a payload or an exception. *)
Theorem end_of_stream_completes (lines : list line) (t : line) :
  is_terminal t = true ->
  run_agent_stream_get_tool_args (streaming (lines ++ [t]))
  = run_agent_stream_get_tool_args (streaming lines).
Proof.
  intros T. rewrite !run_streaming.
  now rewrite read_stream_append_terminal by exact T.
Qed.

Lemma end_of_stream_completes_delta :
  run_agent_stream_get_tool_args (streaming ([first_delta] ++ [run_completed]))
  = run_agent_stream_get_tool_args (streaming [first_delta]).
Proof.
  apply (@end_of_stream_completes [first_delta] run_completed).
  reflexivity.
Defined.

Lemma run_returns_inv (r : response) (d : dict) :
  run_agent_stream_get_tool_args r = Return d ->
  ok r = true
  /\ exists c,
       last_call (captured (iter_lines r)) = Some c
       /\ call_args c <> []
       /\ truthy (call_name c) = true
       /\ d = dict_set (call_args c) (txt "_tool_name") (call_name c).
Proof.
  unfold run_agent_stream_get_tool_args.
  destruct (ok r); [|discriminate].
  destruct (read_stream (iter_lines r) no_capture) as [st|e] eqn:R;
    [|discriminate].
  cbn [bind]. intros F. split; [reflexivity|].
  assert (C : completes (iter_lines r)) by (now exists st).
  rewrite (completes_holding C) in R. injection R as <-.
  destruct (last_call (captured (iter_lines r))) as [c|] eqn:L;
    [|discriminate].
  exists c. cbn [holding] in F. unfold finish in F.
  cbn [tool_args tool_name] in F.
  assert (N : truthy (call_name c) = true)
    by (apply captured_named with (iter_lines r); now apply last_call_in).
  destruct (call_args c) as [|kv rest] eqn:A; [discriminate|].
  unfold py_or in F. rewrite N in F. injection F as <-.
  repeat split; [discriminate|exact N].
Qed.

(** X2. Whatever payload a run returns comes from its last captured
    ToolCall alone: the entry [_tool_name] holds that call's name, which
    is never empty, and every other key has the value the call's
    arguments give it.  An argument the agent itself names [_tool_name]
    is thus overwritten. *)
Theorem run_result_entries (r : response) (d : dict) :
  run_agent_stream_get_tool_args r = Return d ->
  exists c,
    last_call (captured (iter_lines r)) = Some c
    /\ dict_lookup d (txt "_tool_name") = Some (call_name c)
    /\ truthy (call_name c) = true
    /\ (forall k, k <> txt "_tool_name" ->
                  dict_lookup d k = dict_lookup (call_args c) k).
Proof.
  intros H. destruct (run_returns_inv _ H) as (_ & c & L & _ & N & ->).
  exists c. split; [exact L|]. split; [apply dict_lookup_set_same|].
  split; [exact N|]. intros k K. now apply dict_lookup_set_other.
Qed.

(** An agent that sends its own [_tool_name] argument. *)
Definition spoofed_name_run : list line :=
  [step_delta [tool_call_entry (txt "log_incident")
                 [(txt "_tool_name", JStr (txt "other"));
                  (txt "asset", JStr (txt "Bin 7"))]];
   done_event].

Lemma run_result_entries_spoofed :
  exists d,
    run_agent_stream_get_tool_args (streaming spoofed_name_run) = Return d
    /\ dict_lookup d (txt "_tool_name") = Some log_incident
    /\ dict_lookup d (txt "asset") = Some (JStr (txt "Bin 7")).
Proof.
  eexists. split; [reflexivity|].
  destruct (@run_result_entries (streaming spoofed_name_run) _ eq_refl)
    as (c & L & T & _ & _).
  injection L as <-. split; [exact T|reflexivity].
Defined.



Lemma terminal_line_ok (l : line) : is_terminal l = true -> line_ok l = true.
Proof.
  unfold is_terminal, terminal_kind, has_data, line_ok, step_details_of.
  destruct l as [| | |obj|why]; try discriminate.
  destruct obj as [| | | | | |obj]; try discriminate.
  intros H. apply andb_true_iff in H as [K D].
  destruct (get obj (txt "data")); try discriminate.
  now rewrite (terminal_not_delta _ K).
Qed.




Lemma on_line_ignorable (l : line) (st : extractor) :
  ignorable l = true -> on_line l st = Return (st, Continue).
Proof.
  unfold ignorable, has_data, terminal_kind.
  destruct l as [| | |obj|why]; try discriminate.
  destruct obj as [| | | | | |obj]; try discriminate.
  cbn [on_line].
  destruct (get obj (txt "data")); try reflexivity.
  cbn [negb orb]. intros H. apply negb_true_iff in H.
  apply orb_false_iff in H as [D K]. now rewrite D, K.
Qed.

(** X4. Records the extractor has no use for are no-ops: for every
    stream, removing the records whose data is no mapping, or whose kind
    is neither [run.step.delta] nor terminal, leaves the run's outcome
    as it is. *)
Theorem other_events_change_nothing (lines : list line) :
  run_agent_stream_get_tool_args
    (streaming (filter (fun l => negb (ignorable l)) lines))
  = run_agent_stream_get_tool_args (streaming lines).
Proof.
  rewrite !run_streaming. f_equal.
  generalize no_capture as st.
  induction lines as [|l lines IH]; intros st; [reflexivity|].
  cbn [filter]. destruct (ignorable l) eqn:I; cbn [negb].
  - cbn [read_stream]. rewrite (on_line_ignorable _ st I). cbn [bind].
    apply IH.
  - cbn [read_stream].
    destruct (on_line l st) as [[st' f]|e]; [|reflexivity].
    cbn [bind]. destruct f; [apply IH|reflexivity].
Qed.

Lemma read_stream_through (pre rest : list line) (st : extractor) :
  forallb line_ok pre = true ->
  existsb is_terminal pre = false ->
  read_stream (pre ++ rest) st
  = read_stream rest (settle st (flat_map observed pre)).
Proof.
  revert st. induction pre as [|l pre IH]; intros st Hok Hterm;
    [reflexivity|].
  cbn [forallb] in Hok. apply andb_true_iff in Hok as [Hl Hpre].
  cbn [existsb] in Hterm. apply orb_false_iff in Hterm as [Tl Tpre].
  cbn [app read_stream]. rewrite (on_line_settle _ _ Hl), Tl. cbn [bind].
  cbn [flat_map]. rewrite settle_app. now apply IH.
Qed.

(** X5. A line that [json.loads] reads as a value other than an object
    is fatal: for every stream in the external format with no terminal
    event, followed by a line for which [json.loads] returns a list, a
    text, a number, a bool or null, the run raises [AttributeError]
    whatever was captured before and whatever follows.  (A line on
    which [json.loads] itself raises is another case: the run ends with
    that exception.) *)
Theorem non_object_line_is_fatal (pre post : list line) (v : json) :
  forallb line_ok pre = true ->
  existsb is_terminal pre = false ->
  is_object v = false ->
  run_agent_stream_get_tool_args (streaming (pre ++ LineJson v :: post))
  = Raise AttributeError
  /\ forall why,
       run_agent_stream_get_tool_args
         (streaming (pre ++ LineUnread why :: post))
       = Raise (raised why).
Proof.
  intros Hok Hterm Hv. rewrite !run_streaming. split.
  - rewrite read_stream_through by assumption. cbn [read_stream].
    destruct v; try discriminate; reflexivity.
  - intros why. rewrite run_streaming.
    rewrite read_stream_through by assumption. reflexivity.
Qed.

Lemma non_object_line_is_fatal_number :
  run_agent_stream_get_tool_args
    (streaming ([first_delta] ++ LineJson (JInt 5) :: [done_event]))
  = Raise AttributeError.
Proof.
  apply (@non_object_line_is_fatal [first_delta] [done_event] (JInt 5));
    reflexivity.
Defined.

(** * Further properties of the dedup key *)

(** A payload with the five key fields as texts. *)
Definition report (a t s ts sm : pystr) : dict :=
  [(txt "asset", JStr a); (txt "incident_type", JStr t);
   (txt "severity", JStr s); (txt "timestamp", JStr ts);
   (txt "summary", JStr sm)].

Definition bar : pystr := txt "|".

Lemma strip_spaces (ws : pystr) : forallb is_space ws = true -> strip ws = [].
Proof.
  intros H. unfold strip.
  rewrite <- (app_nil_r ws), (lstrip_spaces _ _ H). reflexivity.
Qed.

Lemma tool_name_not_key_field (f : pystr) :
  In f key_fields -> f <> txt "_tool_name".
Proof.
  cbn [key_fields In].
  intros [<-|[<-|[<-|[<-|[<-|[]]]]]] E; vm_compute in E; discriminate E.
Qed.

Section KeyEdges.

Context {ucd : UnicodeData}.

(** X6. The key sees a value only through [str]: for every payload and
    field, a value and the text [str] prints for it give the same key,
    so the number 5 and the text [5], or null and the text [None],
    collide. *)
Theorem key_of_value_is_key_of_its_text (args : dict) (f : pystr)
    (v : json) :
  make_work_order_key (dict_set args f v)
  = make_work_order_key (dict_set args f (JStr (py_str v))).
Proof.
  apply key_agrees. intros g _.
  destruct (Text.eqb g f) eqn:E.
  - apply eqb_eq in E. subst g. now rewrite !dict_lookup_set_same.
  - assert (N : g <> f) by (intros ->; now rewrite eqb_refl in E).
    now rewrite !dict_lookup_set_other.
Qed.

(** X7. The join with [|] does not keep the fields apart: whenever
    trimming and lowercasing pass through a [|] inside the asset and
    inside the summary, the report whose asset is [x|y] and the report
    whose asset is [x] and whose incident type is [y], the later fields
    shifted by one, have the same key. *)
Theorem bar_shifts_field_boundaries (x y t s u w : pystr) :
  lower (strip (x ++ bar ++ y)) = lower (strip x) ++ bar ++ lower (strip y) ->
  lower (strip (u ++ bar ++ w)) = lower (strip u) ++ bar ++ lower (strip w) ->
  make_work_order_key (report (x ++ bar ++ y) t s u w)
  = make_work_order_key (report x y t s (u ++ bar ++ w)).
Proof.
  intros Hxy Huw. unfold make_work_order_key. cbv zeta.
  change (canonical (report (x ++ bar ++ y) t s u w) (txt "asset"))
    with (lower (strip (x ++ bar ++ y))).
  change (canonical (report (x ++ bar ++ y) t s u w) (txt "incident_type"))
    with (lower (strip t)).
  change (canonical (report (x ++ bar ++ y) t s u w) (txt "severity"))
    with (lower (strip s)).
  change (canonical (report (x ++ bar ++ y) t s u w) (txt "timestamp"))
    with (lower (strip u)).
  change (canonical (report (x ++ bar ++ y) t s u w) (txt "summary"))
    with (lower (strip w)).
  change (canonical (report x y t s (u ++ bar ++ w)) (txt "asset"))
    with (lower (strip x)).
  change (canonical (report x y t s (u ++ bar ++ w)) (txt "incident_type"))
    with (lower (strip y)).
  change (canonical (report x y t s (u ++ bar ++ w)) (txt "severity"))
    with (lower (strip t)).
  change (canonical (report x y t s (u ++ bar ++ w)) (txt "timestamp"))
    with (lower (strip s)).
  change (canonical (report x y t s (u ++ bar ++ w)) (txt "summary"))
    with (lower (strip (u ++ bar ++ w))).
  rewrite Hxy, Huw. fold bar. now rewrite <- !app_assoc.
Qed.

(** X8. The entry a run adds never reaches the key: for every run that
    returns a payload, the payload's key is the key of the last captured
    ToolCall's arguments, whatever the tool is called. *)
Theorem run_result_key (r : response) (d : dict) :
  run_agent_stream_get_tool_args r = Return d ->
  exists c,
    last_call (captured (iter_lines r)) = Some c
    /\ make_work_order_key d = make_work_order_key (call_args c).
Proof.
  intros H. destruct (run_returns_inv _ H) as (_ & c & L & _ & _ & ->).
  exists c. split; [exact L|].
  apply key_agrees. intros f Hf.
  now rewrite dict_lookup_set_other by now apply tool_name_not_key_field.
Qed.

(** X9. A blank value counts as no value: for every payload that lacks
    a field, setting the field to a text of whitespace only (the empty
    text included) leaves the key as it is. *)
Theorem blank_field_is_absent_field (args : dict) (f ws : pystr) :
  forallb is_space ws = true ->
  dict_lookup args f = None ->
  make_work_order_key (dict_set args f (JStr ws)) = make_work_order_key args.
Proof.
  intros Hws Habs. apply key_agrees. intros g _.
  destruct (Text.eqb g f) eqn:E.
  - apply eqb_eq in E. subst g. rewrite dict_lookup_set_same, Habs.
    unfold canonical_value. cbn [py_str]. now rewrite (strip_spaces _ Hws).
  - assert (N : g <> f) by (intros ->; now rewrite eqb_refl in E).
    now rewrite dict_lookup_set_other.
Qed.

End KeyEdges.

Lemma bar_shifts_field_boundaries_bin7 :
  make_work_order_key
    (report (txt "bin" ++ bar ++ txt "7") (txt "overheat") (txt "p2")
            (txt "noon") (txt "hot"))
  = make_work_order_key
      (report (txt "bin") (txt "7") (txt "overheat") (txt "p2")
              (txt "noon" ++ bar ++ txt "hot")).
Proof.
  apply (@bar_shifts_field_boundaries ascii_tables); reflexivity.
Defined.

Lemma run_result_key_scenario :
  exists d,
    run_agent_stream_get_tool_args (streaming scenario) = Return d
    /\ make_work_order_key d = make_work_order_key bin7_args.
Proof.
  eexists. split; [reflexivity|].
  destruct (@run_result_key ascii_tables (streaming scenario) _ eq_refl)
    as (c & L & K).
  injection L as <-. exact K.
Defined.

Lemma blank_field_is_absent_field_bin7 :
  make_work_order_key (dict_set bin7_args (txt "summary") (JStr (txt "  ")))
  = make_work_order_key bin7_args.
Proof.
  apply (@blank_field_is_absent_field ascii_tables); reflexivity.
Defined.

(** * Further properties of the store *)

(** The rows and the keys a connection shows for [work_orders]. *)
Definition stored (conn : connection) : list work_order :=
  table_or_empty (work_orders (file conn)).

Definition stored_keys (conn : connection) : list pystr :=
  map work_order_key (stored conn).

(** The file is opened and initialised again, as [main] does at start. *)
Definition reopened (conn : connection) : connection :=
  db_init (db_connect (file conn)).

Lemma prepare_rows (conn : connection) (rows : list work_order)
    (us : list user) :
  prepare_insert conn = Return (rows, us) ->
  work_orders (file conn) = Some rows.
Proof.
  unfold prepare_insert.
  destruct (work_orders (file conn)); [|discriminate].
  destruct (users (file conn)).
  - now intros [= -> _].
  - destruct (foreign_keys conn); [discriminate|]. now intros [= -> _].
Qed.

Lemma key_not_stored (key : pystr) (rows : list work_order) :
  key_taken key rows = false -> ~ In key (map work_order_key rows).
Proof.
  induction rows as [|r rows IH]; cbn [key_taken existsb map In];
    [tauto|].
  intros H. apply orb_false_iff in H as [Hr Hrows].
  intros [E|E]; [|now apply IH].
  rewrite E, eqb_refl in Hr. discriminate.
Qed.

Lemma rowid_le_max (rows : list work_order) :
  Forall (fun r => (rowid r <= max_rowid rows)%Z) rows.
Proof.
  unfold max_rowid. induction rows as [|r rows IH]; constructor.
  - cbn [fold_right]. lia.
  - cbn [fold_right]. eapply Forall_impl; [|exact IH].
    cbn beta. intros a Ha. lia.
Qed.

Section StoreInvariants.

Context {ucd : UnicodeData}.

(** Every outcome of an upsert is one of two. *)
Lemma outcome_inv (conn conn' : connection) (uid : Z) (args : dict)
    (now : pystr) (b : bool) :
  upsert_work_order conn uid args now = Return (b, conn') ->
  (b = Duplicate /\ conn' = conn)
  \/ (b = Inserted
      /\ exists key rows us,
           make_work_order_key args = Return key
           /\ prepare_insert conn = Return (rows, us)
           /\ key_taken key rows = false
           /\ conn' = with_row conn rows
                        (new_row (Z.max (work_orders_seq (file conn))
                                        (max_rowid rows) + 1)
                                 key uid args now)).
Proof.
  destruct b; intros H.
  - right. split; [reflexivity|]. now apply inserted_inv.
  - left. split; [reflexivity|]. now apply duplicate_untouched in H.
Qed.

(** X10. Upserts keep the stored keys distinct: for every upsert that
    returns, if no two stored records share a key before the call, none
    do after it. *)
Theorem upsert_keeps_keys_distinct (conn conn' : connection) (uid : Z)
    (args : dict) (now : pystr) (b : bool) :
  upsert_work_order conn uid args now = Return (b, conn') ->
  NoDup (stored_keys conn) ->
  NoDup (stored_keys conn').
Proof.
  intros H N.
  destruct (outcome_inv _ _ _ _ H)
    as [[_ ->]|(_ & key & rows & us & _ & P & T & ->)]; [exact N|].
  unfold stored_keys, stored in *. rewrite (prepare_rows _ P) in N.
  cbn [with_row file work_orders table_or_empty] in *.
  rewrite map_app. cbn [map new_row work_order_key].
  apply NoDup_app; [exact N|repeat constructor; intros []|].
  intros k Hk [<-|[]]. now apply (key_not_stored _ _ T).
Qed.

(** X11. An upsert only ever appends: for every upsert that returns, the
    stored records are the old ones, unchanged and in order, followed by
    one new record when the outcome is Inserted and by none when it is
    Duplicate; the users and the foreign-key setting are as before. *)
Theorem upsert_only_appends (conn conn' : connection) (uid : Z)
    (args : dict) (now : pystr) (b : bool) :
  upsert_work_order conn uid args now = Return (b, conn') ->
  (exists more,
     stored conn' = stored conn ++ more
     /\ length more = (if b then 1 else 0))
  /\ users (file conn') = users (file conn)
  /\ foreign_keys conn' = foreign_keys conn.
Proof.
  intros H.
  destruct (outcome_inv _ _ _ _ H)
    as [[-> ->]|(-> & key & rows & us & _ & P & _ & ->)].
  - split; [|split; reflexivity].
    exists []. now rewrite app_nil_r.
  - split; [|split; reflexivity].
    eexists. unfold stored. rewrite (prepare_rows _ P).
    cbn [with_row file work_orders table_or_empty]. split; reflexivity.
Qed.

(** X12. Rowids are never given twice: the record an Inserted upsert adds
    gets the rowid after the largest one the table has given out, above
    the rowid of every stored record, and the counter moves to it. *)
Theorem inserted_rowid_is_fresh (conn conn' : connection) (uid : Z)
    (args : dict) (now : pystr) :
  upsert_work_order conn uid args now = Return (Inserted, conn') ->
  exists row,
    stored conn' = stored conn ++ [row]
    /\ rowid row = (last_rowid conn + 1)%Z
    /\ Forall (fun r => (rowid r < rowid row)%Z) (stored conn)
    /\ work_orders_seq (file conn') = rowid row
    /\ last_rowid conn' = rowid row.
Proof.
  intros H.
  destruct (inserted_inv _ _ _ _ H) as (key & rows & us & _ & P & _ & ->).
  pose proof (prepare_rows _ P) as W.
  assert (HL : last_rowid conn
               = Z.max (work_orders_seq (file conn)) (max_rowid rows))
    by (unfold last_rowid; now rewrite W).
  pose proof (max_rowid_nonneg rows) as Hmax.
  eexists. split; [unfold stored; rewrite W; reflexivity|].
  cbn [new_row rowid]. split; [now rewrite HL|]. split; [|split].
  - unfold stored. rewrite W. cbn [table_or_empty].
    eapply Forall_impl; [|apply rowid_le_max]. cbn beta. intros r Hr. lia.
  - reflexivity.
  - rewrite last_rowid_with_row. cbn [new_row rowid]. lia.
Qed.

Lemma taken_key_is_duplicate (conn : connection) (uid : Z) (args : dict)
    (now key : pystr) (rows : list work_order) (us : list user) :
  make_work_order_key args = Return key ->
  prepare_insert conn = Return (rows, us) ->
  key_taken key rows = true ->
  storable uid args now = true ->
  (Z.max (work_orders_seq (file conn)) (max_rowid rows) < largest_rowid)%Z ->
  upsert_work_order conn uid args now = Return (Duplicate, conn).
Proof.
  intros K P T S R. rewrite (upsert_cases conn uid args now K P S R).
  now rewrite T.
Qed.

(** X13. The dedup survives a restart: once a payload is Inserted, an
    upsert of it through a connection that opens and initialises the
    same file again is Duplicate, whoever the creator is, and stores
    nothing. *)
Theorem duplicate_after_restart (conn conn' : connection) (uid uid' : Z)
    (args : dict) (t1 t2 : pystr) :
  upsert_work_order conn uid args t1 = Return (Inserted, conn') ->
  storable uid' args t2 = true ->
  (last_rowid conn' < largest_rowid)%Z ->
  upsert_work_order (reopened conn') uid' args t2
  = Return (Duplicate, reopened conn').
Proof.
  intros H S R.
  destruct (inserted_inv _ _ _ _ H) as (key & rows & us & K & P & _ & ->).
  set (row := new_row _ key uid args t1) in *.
  eapply taken_key_is_duplicate with (key := key) (rows := rows ++ [row])
    (us := table_or_empty (users (file conn))).
  - exact K.
  - reflexivity.
  - apply key_taken_new_row.
  - exact S.
  - exact R.
Qed.


(** X15. Without [db_init] nothing is stored: on a file that has no
    [work_orders] table an upsert raises [OperationalError] for every
    payload whose key is computed, before any value is bound. *)
Theorem upsert_needs_db_init (conn : connection) (uid : Z) (args : dict)
    (now key : pystr) :
  make_work_order_key args = Return key ->
  work_orders (file conn) = None ->
  upsert_work_order conn uid args now = Raise OperationalError.
Proof.
  intros K W. unfold upsert_work_order. rewrite K. cbn [bind].
  unfold prepare_insert. now rewrite W.
Qed.

(** X16. When an upsert reaches the constraints, it is Inserted exactly
    when no stored record has the payload's key and the creator is a
    known user or foreign keys are not enforced. *)
Theorem inserted_iff_new_key_and_known_creator (conn : connection) (uid : Z)
    (args : dict) (now key : pystr) (rows : list work_order)
    (us : list user) :
  make_work_order_key args = Return key ->
  work_orders (file conn) = Some rows ->
  users (file conn) = Some us ->
  storable uid args now = true ->
  (last_rowid conn < largest_rowid)%Z ->
  ((exists conn', upsert_work_order conn uid args now
                  = Return (Inserted, conn'))
   <-> key_taken key rows = false
       /\ (foreign_keys conn = false \/ user_known uid us = true)).
Proof.
  intros K W U S R.
  assert (P : prepare_insert conn = Return (rows, us))
    by (unfold prepare_insert; now rewrite W, U).
  assert (R' : (Z.max (work_orders_seq (file conn)) (max_rowid rows)
                < largest_rowid)%Z)
    by (unfold last_rowid in R; now rewrite W in R).
  rewrite (upsert_cases conn uid args now K P S R').
  destruct (key_taken key rows); cbn [orb].
  - split; [intros [c E]; discriminate|intros [E _]; discriminate].
  - destruct (foreign_keys conn); cbn [andb].
    + destruct (user_known uid us); cbn [negb].
      * split; [auto|]. intros _. eexists. reflexivity.
      * split; [intros [c E]; discriminate|].
        intros [_ [E|E]]; discriminate.
    + split; [auto|]. intros _. eexists. reflexivity.
Qed.

End StoreInvariants.

(** The store after the scenario's payload went in at noon. *)
Definition stocked : connection :=
  Eval vm_compute in
    match upsert_work_order ready_store 1 bin7_args noon with
    | Return (_, c) => c
    | Raise _ => ready_store
    end.

Lemma stocked_inserted :
  upsert_work_order ready_store 1 bin7_args noon = Return (Inserted, stocked).
Proof. vm_compute. reflexivity. Qed.

Lemma upsert_keeps_keys_distinct_bin7 : NoDup (stored_keys stocked).
Proof.
  apply (@upsert_keeps_keys_distinct ascii_tables ready_store stocked 1
           bin7_args noon Inserted stocked_inserted).
  constructor.
Defined.

Lemma upsert_only_appends_bin7 :
  exists more,
    stored stocked = stored ready_store ++ more /\ length more = 1.
Proof.
  exact (proj1 (@upsert_only_appends ascii_tables ready_store stocked 1
                  bin7_args noon Inserted stocked_inserted)).
Defined.

Lemma inserted_rowid_is_fresh_bin7 :
  exists row, stored stocked = [row] /\ rowid row = 1%Z.
Proof.
  destruct (@inserted_rowid_is_fresh ascii_tables ready_store stocked 1
              bin7_args noon stocked_inserted) as (row & A & B & _).
  exists row. split; [exact A|exact B].
Defined.

Lemma duplicate_after_restart_bin7 :
  upsert_work_order (reopened stocked) 1 bin7_args later
  = Return (Duplicate, reopened stocked).
Proof.
  apply (@duplicate_after_restart ascii_tables ready_store stocked 1 1
           bin7_args noon later stocked_inserted).
  - vm_compute. reflexivity.
  - vm_compute. reflexivity.
Defined.


Lemma upsert_needs_db_init_new_file :
  upsert_work_order (db_connect empty_file) 1 bin7_args noon
  = Raise OperationalError.
Proof.
  apply (@upsert_needs_db_init ascii_tables (db_connect empty_file) 1
           bin7_args noon bin7_key).
  - vm_compute. reflexivity.
  - reflexivity.
Defined.

Lemma inserted_iff_new_key_and_known_creator_bin7 :
  exists conn',
    upsert_work_order ready_store 1 bin7_args noon = Return (Inserted, conn').
Proof.
  apply (proj2 (@inserted_iff_new_key_and_known_creator ascii_tables
                  ready_store 1 bin7_args noon bin7_key [] [default_user]
                  ltac:(vm_compute; reflexivity) eq_refl eq_refl
                  ltac:(vm_compute; reflexivity)
                  ltac:(vm_compute; reflexivity))).
  split; [reflexivity|right; reflexivity].
Defined.

(** * Properties of the default user *)

Lemma select_known (us : list user) (email : pystr) (id : Z) :
  select_user_id us email = Some id -> user_known id us = true.
Proof.
  unfold select_user_id, user_known.
  induction us as [|u us IH]; cbn [find existsb]; [discriminate|].
  destruct (Text.eqb (user_email u) email).
  - intros [= <-]. now rewrite Z.eqb_refl.
  - intros H. rewrite (IH H). apply orb_true_r.
Qed.

Lemma select_app_new (us : list user) (u : user) :
  select_user_id us (user_email u) = None ->
  select_user_id (us ++ [u]) (user_email u) = Some (user_id u).
Proof.
  unfold select_user_id.
  induction us as [|x us IH]; cbn [app find].
  - now rewrite eqb_refl.
  - destruct (Text.eqb (user_email x) (user_email u)); [discriminate|].
    exact IH.
Qed.

Lemma user_id_le_max (us : list user) :
  Forall (fun u => (user_id u <= max_user_id us)%Z) us.
Proof.
  unfold max_user_id. induction us as [|u us IH]; constructor.
  - cbn [fold_right]. lia.
  - cbn [fold_right]. eapply Forall_impl; [|exact IH].
    cbn beta. intros a Ha. lia.
Qed.

(** What a call that returns has done. *)
Lemma ensure_inv (conn conn' : connection) (seq seq' id : Z) (now : pystr) :
  ensure_default_user conn seq now = Return (id, conn', seq') ->
  exists us,
    users (file conn) = Some us
    /\ ((select_user_id us DEFAULT_USER_EMAIL = Some id
         /\ conn' = conn /\ seq' = seq)
        \/ (select_user_id us DEFAULT_USER_EMAIL = None
            /\ id = (Z.max seq (max_user_id us) + 1)%Z
            /\ seq' = id
            /\ conn' = with_user conn us
                         {| user_id := id;
                            user_email := DEFAULT_USER_EMAIL;
                            user_name := DEFAULT_USER_NAME;
                            user_created_at := now |})).
Proof.
  unfold ensure_default_user.
  destruct (users (file conn)) as [us|]; [|discriminate].
  intros H. exists us. split; [reflexivity|].
  destruct (select_user_id us DEFAULT_USER_EMAIL) as [i|] eqn:S.
  - left. injection H as <- <- <-. auto.
  - right. split; [reflexivity|].
    destruct (bind_text DEFAULT_USER_EMAIL); [|discriminate].
    destruct (bind_text DEFAULT_USER_NAME); [|discriminate].
    destruct (bind_text now); [|discriminate]. cbn [bind] in H.
    destruct (largest_rowid <=? _)%Z; [discriminate|].
    set (u := {| user_id := _ |}) in *.
    assert (E : select_user_id (us ++ [u]) DEFAULT_USER_EMAIL
                = Some (user_id u)) by (apply (select_app_new us u); exact S).
    rewrite E in H. injection H as <- <- <-. auto.
Qed.

(** X17. [ensure_default_user] is idempotent: for every call that
    returns, a second call on the resulting connection returns the same
    id and leaves the connection and the counter as they are, whatever
    the clock then reads. *)
Theorem ensure_default_user_twice (conn conn' : connection)
    (seq seq' id : Z) (now now' : pystr) :
  ensure_default_user conn seq now = Return (id, conn', seq') ->
  ensure_default_user conn' seq' now' = Return (id, conn', seq').
Proof.
  intros H.
  destruct (ensure_inv _ _ _ H) as (us & U & [(S & -> & ->)|(S & I & -> & ->)]).
  - unfold ensure_default_user. now rewrite U, S.
  - unfold ensure_default_user.
    cbn [with_user file users].
    set (u := {| user_id := id |}).
    assert (E : select_user_id (us ++ [u]) DEFAULT_USER_EMAIL
                = Some (user_id u)) by (apply (select_app_new us u); exact S).
    now rewrite E.
Qed.

(** X18. A call that returns never touches what is there: the users
    before it are kept, unchanged and in order, with at most one user
    added after them; the work orders are as before; and a user it adds
    carries the default e-mail and an id above every id in the table and
    above the counter. *)
Theorem ensure_default_user_only_appends (conn conn' : connection)
    (seq seq' id : Z) (now : pystr) :
  ensure_default_user conn seq now = Return (id, conn', seq') ->
  exists us more,
    users (file conn) = Some us
    /\ users (file conn') = Some (us ++ more)
    /\ work_orders (file conn') = work_orders (file conn)
    /\ foreign_keys conn' = foreign_keys conn
    /\ (more = []
        \/ exists u,
             more = [u] /\ user_id u = id
             /\ user_email u = DEFAULT_USER_EMAIL
             /\ Forall (fun x => (user_id x < id)%Z) us
             /\ (seq < id)%Z).
Proof.
  intros H.
  destruct (ensure_inv _ _ _ H) as (us & U & [(S & -> & ->)|(S & I & -> & ->)]).
  - exists us, []. rewrite app_nil_r. repeat split; auto.
  - eexists us, [_]. split; [exact U|].
    cbn [with_user file users work_orders foreign_keys].
    repeat split. right. eexists. split; [reflexivity|].
    cbn [user_id user_email]. repeat split.
    + eapply Forall_impl; [|apply user_id_le_max].
      cbn beta. intros x Hx. lia.
    + lia.
Qed.

Section Startup.

Context {ucd : UnicodeData}.

(** X19. After the start of [main], a new incident is never taken for a
    duplicate: on the connection [db_init] and [ensure_default_user]
    leave, an upsert by the returned user of a payload whose key no
    stored record has is Inserted, whenever it reaches the INSERT. *)
Theorem new_incident_after_startup_is_inserted (conn conn' : connection)
    (seq seq' uid : Z) (t0 now key : pystr) (args : dict) :
  ensure_default_user (db_init conn) seq t0 = Return (uid, conn', seq') ->
  make_work_order_key args = Return key ->
  storable uid args now = true ->
  key_taken key (stored conn) = false ->
  (last_rowid conn < largest_rowid)%Z ->
  exists conn'',
    upsert_work_order conn' uid args now = Return (Inserted, conn'').
Proof.
  intros H K S T R.
  destruct (ensure_inv _ _ _ H)
    as (us & U & [(Sel & -> & _)|(Sel & I & _ & ->)]).
  - assert (P : prepare_insert (db_init conn) = Return (stored conn, us)).
    { unfold prepare_insert. rewrite U. reflexivity. }
    rewrite (upsert_cases (db_init conn) uid args now K P S R), T.
    rewrite (select_known _ _ Sel). rewrite andb_false_r.
    eexists. reflexivity.
  - set (u := {| user_id := uid |}) in *.
    assert (P : prepare_insert (with_user (db_init conn) us u)
                = Return (stored conn, us ++ [u])) by reflexivity.
    rewrite (upsert_cases _ uid args now K P S R), T.
    unfold user_known. rewrite existsb_app. cbn [existsb user_id u].
    rewrite Z.eqb_refl, orb_true_r. cbn [orb negb]. rewrite andb_false_r.
    eexists. reflexivity.
Qed.

End Startup.

(** A new file after [db_connect] and [db_init], the user the first
    call adds to it, and the connection that call leaves. *)
Definition new_store : connection := db_init (db_connect empty_file).

Definition first_user : user :=
  {| user_id := 1; user_email := DEFAULT_USER_EMAIL;
     user_name := DEFAULT_USER_NAME; user_created_at := noon |}.

Definition started : connection := with_user new_store [] first_user.

Lemma ensure_default_user_new_file :
  ensure_default_user new_store 0 noon = Return (1%Z, started, 1%Z).
Proof. vm_compute. reflexivity. Qed.

Lemma ensure_default_user_twice_new_file :
  ensure_default_user started 1 later = Return (1%Z, started, 1%Z).
Proof.
  apply (@ensure_default_user_twice _ _ _ _ _ noon later
           ensure_default_user_new_file).
Defined.

Lemma ensure_default_user_only_appends_new_file :
  exists more : list user,
    users (file started) = Some ([] ++ more)
    /\ work_orders (file started) = work_orders (file new_store).
Proof.
  destruct (@ensure_default_user_only_appends _ _ _ _ _ _
              ensure_default_user_new_file)
    as (us & more & U & U' & W & _).
  injection U as <-. exists more. split; [exact U'|exact W].
Defined.

Lemma new_incident_after_startup_is_inserted_bin7 :
  exists conn'',
    upsert_work_order started 1 bin7_args later = Return (Inserted, conn'').
Proof.
  apply (@new_incident_after_startup_is_inserted ascii_tables
           (db_connect empty_file) _ 0 1 1 noon later bin7_key bin7_args
           ensure_default_user_new_file).
  - vm_compute. reflexivity.
  - vm_compute. reflexivity.
  - reflexivity.
  - vm_compute. reflexivity.
Defined.

(** * Properties of the e-mails *)

Definition is_text (v : json) : bool :=
  match v with
  | JStr _ => true
  | _ => false
  end.

(** A value a section can list: empty, or one a loop can visit. *)
Definition listable (v : json) : bool := negb (truthy v) || iterable v.

(** A summary that can be a line: empty, or a text. *)
Definition text_or_empty (v : json) : bool := negb (truthy v) || is_text v.

Definition summary_of (args : dict) : json :=
  get_default args (txt "summary") (JStr []).
Definition hypotheses_of (args : dict) : json :=
  get_default args (txt "hypotheses") (JList []).
Definition actions_of (args : dict) : json :=
  get_default args (txt "actions") (JList []).

(** A text with no whitespace at either end. *)
Definition trimmed (s : pystr) : Prop :=
  (forall c r, s = c :: r -> is_space c = false)
  /\ (forall c r, s = r ++ [c] -> is_space c = false).

Lemma join_lines_returns (lines : list json) :
  returns (join_lines lines) = forallb is_text lines.
Proof.
  unfold join_lines.
  assert (H : match texts lines with Some _ => true | None => false end
              = forallb is_text lines).
  { induction lines as [|v lines IH]; [reflexivity|].
    destruct v; try reflexivity. cbn [texts forallb is_text andb].
    rewrite <- IH. destruct (texts lines); reflexivity. }
  rewrite <- H. destruct (texts lines); reflexivity.
Qed.

Lemma join_lines_raises (lines : list json) (e : exn) :
  join_lines lines = Raise e -> e = TypeError.
Proof.
  unfold join_lines. destruct (texts lines); [discriminate|].
  now intros [= <-].
Qed.

Lemma lstrip_head (s : pystr) (c : codepoint) (r : pystr) :
  lstrip s = c :: r -> is_space c = false.
Proof.
  induction s as [|a s IH]; cbn [lstrip]; [discriminate|].
  destruct (is_space a) eqn:A; [exact IH|].
  now intros [= <- _].
Qed.

Lemma lstrip_suffix (s : pystr) : exists ws, s = ws ++ lstrip s.
Proof.
  induction s as [|a s [ws IH]]; cbn [lstrip]; [now exists []|].
  destruct (is_space a).
  - exists (a :: ws). cbn [app]. now rewrite <- IH.
  - now exists [].
Qed.

Lemma strip_trimmed (s : pystr) : trimmed (strip s).
Proof.
  unfold strip, rstrip. split.
  - intros c r E.
    destruct (lstrip_suffix (rev (lstrip s))) as [ws W].
    apply (f_equal (@rev _)) in W.
    rewrite rev_involutive, rev_app_distr, E in W. cbn [app] in W.
    now apply lstrip_head with (s := s) (r := r ++ rev ws).
  - intros c r E. apply (f_equal (@rev _)) in E.
    rewrite rev_involutive, rev_app_distr in E. cbn [rev app] in E.
    now apply lstrip_head in E.
Qed.

Section EmailFacts.

Context {ucd : UnicodeData}.

Lemma numbered_texts (i : Z) (xs : list json) :
  forallb is_text (numbered i xs) = true.
Proof.
  revert i. induction xs as [|x xs IH]; intros i; [reflexivity|].
  cbn [numbered forallb is_text andb]. apply IH.
Qed.

Lemma bulleted_texts (xs : list json) :
  forallb is_text (bulleted xs) = true.
Proof.
  unfold bulleted. induction xs as [|x xs IH]; [reflexivity|].
  cbn [map forallb is_text andb]. exact IH.
Qed.

(** A section of an e-mail: built when the value can be listed, a
    [TypeError] otherwise; what it adds is lines of text. *)
Lemma section_of_cases (lines : list json) (title : pystr) (v : json)
    (render : list json -> list json) :
  (forall xs, forallb is_text (render xs) = true) ->
  if listable v
  then exists more,
         section_of lines title (py_or v (JList [])) render
         = Return (lines ++ more)
         /\ forallb is_text more = true
  else section_of lines title (py_or v (JList [])) render = Raise TypeError.
Proof.
  intros R. unfold listable, section_of, py_or.
  destruct (truthy v) eqn:T; cbn [negb orb].
  - rewrite T. destruct v; cbn [iterable iterate bind]; try reflexivity;
      (eexists; split; [reflexivity|]);
      cbn [app forallb is_text andb]; apply R.
  - cbn [truthy]. exists []. now rewrite app_nil_r.
Qed.

Lemma ops_returns (args : dict) :
  returns (build_ops_email args)
  = text_or_empty (summary_of args) && listable (hypotheses_of args)
    && listable (actions_of args)
  /\ (forall e, build_ops_email args = Raise e -> e = TypeError).
Proof.
  unfold build_ops_email. cbv zeta.
  fold (summary_of args) (hypotheses_of args) (actions_of args).
  set (base := _ ++ _ ++ _ ++ _ ++ _).
  assert (B : forallb is_text base = text_or_empty (summary_of args)).
  { subst base. unfold text_or_empty. rewrite !forallb_app.
    destruct (truthy (summary_of args));
      destruct (truthy (get_default args (txt "location") (JStr [])));
      destruct (truthy (get_default args (txt "timestamp") (JStr [])));
      cbn [forallb is_text andb negb orb]; now rewrite ?andb_true_r. }
  pose proof (section_of_cases base (txt "Likely causes (ranked)")
                (hypotheses_of args) (numbered 1) (numbered_texts 1)) as H1.
  destruct (listable (hypotheses_of args)).
  - destruct H1 as (m1 & -> & T1). cbn [bind].
    pose proof (section_of_cases (base ++ m1)
                  (txt "Immediate action checklist") (actions_of args)
                  bulleted bulleted_texts) as H2.
    destruct (listable (actions_of args)).
    + destruct H2 as (m2 & -> & T2). cbn [bind].
      rewrite !andb_true_r, <- B.
      pose proof (join_lines_returns ((base ++ m1) ++ m2)) as J.
      rewrite !forallb_app, T1, T2, !andb_true_r in J.
      destruct (join_lines ((base ++ m1) ++ m2)) as [text|e] eqn:E.
      * cbn [bind returns] in *. split; [exact J|discriminate].
      * cbn [bind returns] in *. split; [exact J|].
        intros e' [= <-]. now apply join_lines_raises in E.
    + rewrite H2. cbn [bind returns]. rewrite andb_false_r.
      split; [reflexivity|]. now intros e [= <-].
  - rewrite H1. cbn [bind returns]. rewrite andb_false_r.
    split; [reflexivity|]. now intros e [= <-].
Qed.

Lemma maint_returns (args : dict) :
  returns (build_maint_email args)
  = text_or_empty (summary_of args) && listable (actions_of args)
  /\ (forall e, build_maint_email args = Raise e -> e = TypeError).
Proof.
  unfold build_maint_email. cbv zeta.
  fold (summary_of args) (actions_of args).
  set (base := _ ++ _ ++ _ ++ _).
  assert (B : forallb is_text base = text_or_empty (summary_of args)).
  { subst base. unfold text_or_empty. rewrite !forallb_app.
    destruct (truthy (summary_of args));
      destruct (truthy (get_default args (txt "location") (JStr [])));
      destruct (truthy (get_default args (txt "timestamp") (JStr [])));
      cbn [forallb is_text andb negb orb]; now rewrite ?andb_true_r. }
  pose proof (section_of_cases base (txt "Recommended actions")
                (actions_of args) bulleted bulleted_texts) as H2.
  destruct (listable (actions_of args)).
  - destruct H2 as (m2 & -> & T2). cbn [bind].
    rewrite !andb_true_r, <- B.
    pose proof (join_lines_returns (base ++ m2)) as J.
    rewrite !forallb_app, T2, !andb_true_r in J.
    destruct (join_lines (base ++ m2)) as [text|e] eqn:E.
    + cbn [bind returns] in *. split; [exact J|discriminate].
    + cbn [bind returns] in *. split; [exact J|].
      intros e' [= <-]. now apply join_lines_raises in E.
  - rewrite H2. cbn [bind returns]. rewrite andb_false_r.
    split; [reflexivity|]. now intros e [= <-].
Qed.

End EmailFacts.

(** The fields the e-mails read. *)
Definition email_fields : list pystr :=
  [txt "asset"; txt "severity"; txt "incident_type"; txt "location";
   txt "timestamp"; txt "summary"; txt "hypotheses"; txt "actions"].

Section EmailProperties.

Context {ucd : UnicodeData}.

Lemma returns_iff {A} (r : result A) :
  returns r = true <-> exists a, r = Return a.
Proof.
  split; [apply returns_inv|]. now intros [a ->].
Qed.

(** X20. [build_ops_email] builds the e-mail exactly when the summary is
    empty or a text and the hypotheses and the actions are each empty or
    something a loop can visit (a list, a mapping, a text); otherwise it
    raises [TypeError], and it raises nothing else. *)
Theorem ops_email_is_built_iff (args : dict) :
  ((exists d, build_ops_email args = Return d)
   <-> text_or_empty (summary_of args) = true
       /\ listable (hypotheses_of args) = true
       /\ listable (actions_of args) = true)
  /\ (forall e, build_ops_email args = Raise e -> e = TypeError).
Proof.
  destruct (ops_returns args) as [R E]. split; [|exact E].
  rewrite <- returns_iff, R, !andb_true_iff. tauto.
Qed.

(** X21. The maintenance e-mail asks for less than the operations
    e-mail: it is built exactly when the summary is empty or a text and
    the actions can be listed, so for every payload for which
    [build_ops_email] returns, [build_maint_email] returns too. *)
Theorem maint_email_is_built_when_ops_is (args : dict) :
  ((exists d, build_maint_email args = Return d)
   <-> text_or_empty (summary_of args) = true
       /\ listable (actions_of args) = true)
  /\ ((exists d, build_ops_email args = Return d) ->
      exists d, build_maint_email args = Return d)
  /\ (forall e, build_maint_email args = Raise e -> e = TypeError).
Proof.
  destruct (maint_returns args) as [R E].
  destruct (ops_returns args) as [R' _].
  split; [|split; [|exact E]].
  - rewrite <- returns_iff, R, !andb_true_iff. tauto.
  - rewrite <- !returns_iff, R, R', !andb_true_iff. tauto.
Qed.

Lemma ops_email_shape (args : dict) (d : dict) :
  build_ops_email args = Return d ->
  exists subject text,
    d = [(txt "to", JStr OPS_EMAIL_TO); (txt "subject", JStr subject);
         (txt "body", JStr (strip text))].
Proof.
  unfold build_ops_email. cbv zeta.
  destruct (section_of _ _ _ _); [|discriminate]. cbn [bind].
  destruct (section_of _ _ _ _); [|discriminate]. cbn [bind].
  destruct (join_lines _); [|discriminate]. cbn [bind].
  intros [= <-]. eexists. eexists. reflexivity.
Qed.

Lemma maint_email_shape (args : dict) (d : dict) :
  build_maint_email args = Return d ->
  exists subject text,
    d = [(txt "to", JStr MAINT_EMAIL_TO); (txt "subject", JStr subject);
         (txt "body", JStr (strip text))].
Proof.
  unfold build_maint_email. cbv zeta.
  destruct (section_of _ _ _ _); [|discriminate]. cbn [bind].
  destruct (join_lines _); [|discriminate]. cbn [bind].
  intros [= <-]. eexists. eexists. reflexivity.
Qed.

(** X22. Every e-mail that is built has exactly the entries [to],
    [subject] and [body], each a text; [to] is the configured
    recipient; and the body has no whitespace at its start or at its
    end, whatever the payload's values are. *)
Theorem emails_have_three_entries_and_trimmed_body (args : dict) :
  (forall d, build_ops_email args = Return d ->
     exists subject body,
       d = [(txt "to", JStr OPS_EMAIL_TO); (txt "subject", JStr subject);
            (txt "body", JStr body)]
       /\ trimmed body)
  /\ (forall d, build_maint_email args = Return d ->
        exists subject body,
          d = [(txt "to", JStr MAINT_EMAIL_TO); (txt "subject", JStr subject);
               (txt "body", JStr body)]
          /\ trimmed body).
Proof.
  split; intros d H.
  - destruct (ops_email_shape _ H) as (subject & text & ->).
    exists subject, (strip text). split; [reflexivity|apply strip_trimmed].
  - destruct (maint_email_shape _ H) as (subject & text & ->).
    exists subject, (strip text). split; [reflexivity|apply strip_trimmed].
Qed.

Lemma get_default_absent (args : dict) (f : pystr) (default : json) :
  dict_lookup args f = None -> get_default args f default = default.
Proof. unfold get_default. now intros ->. Qed.

(** X23. A payload with none of the fields the e-mails read still gives
    both e-mails, with the stand-ins [Unknown asset], [Unknown] and
    [unknown] in the subject and the body and with no summary, location,
    timestamp, causes or actions section. *)
Theorem emails_of_bare_payload (args : dict) :
  (forall f, In f email_fields -> dict_lookup args f = None) ->
  build_ops_email args
  = Return
      [(txt "to", JStr OPS_EMAIL_TO);
       (txt "subject",
        JStr (txt "Unknown Unknown asset unknown" ++ dash
              ++ txt "incident notification"));
       (txt "body",
        JStr (join newline
                [txt "Incident logged: Unknown asset"; [];
                 txt "Details"; txt "- Classification: unknown";
                 txt "- Severity: Unknown"]))]
  /\ build_maint_email args
     = Return
         [(txt "to", JStr MAINT_EMAIL_TO);
          (txt "subject",
           JStr (txt "MAINT: Unknown Unknown asset unknown" ++ dash
                 ++ txt "maintenance action"));
          (txt "body",
           JStr (join newline
                   [txt "Maintenance request"; [];
                    txt "Asset: Unknown asset"; txt "Type: unknown";
                    txt "Severity: Unknown"]))].
Proof.
  intros H.
  assert (A : forall f default, In f email_fields ->
                get_default args f default = default)
    by (intros f default Hf; apply get_default_absent; now apply H).
  unfold build_ops_email, build_maint_email. cbv zeta.
  rewrite !A by (cbn [email_fields In]; tauto).
  split; reflexivity.
Qed.

End EmailProperties.

Lemma emails_of_bare_payload_note :
  exists d, build_ops_email [(txt "note", JStr (txt "see log"))] = Return d.
Proof.
  eexists.
  apply (proj1 (@emails_of_bare_payload ascii_tables
                  [(txt "note", JStr (txt "see log"))]
                  ltac:(intros f Hf; cbn [email_fields In] in Hf;
                        destruct Hf as [<-|[<-|[<-|[<-|[<-|[<-|[<-|[<-|[]]]]]]]]];
                        reflexivity))).
Defined.

(** * The pieces together *)

Lemma email_field_not_tool_name (f : pystr) :
  In f email_fields -> f <> txt "_tool_name".
Proof.
  cbn [email_fields In].
  intros [<-|[<-|[<-|[<-|[<-|[<-|[<-|[<-|[]]]]]]]]] E;
    vm_compute in E; discriminate E.
Qed.

Lemma get_default_set_other (d : dict) (k f : pystr) (v default : json) :
  f <> k -> get_default (dict_set d k v) f default = get_default d f default.
Proof.
  intros N. unfold get_default. now rewrite dict_lookup_set_other.
Qed.

Section Together.

Context {ucd : UnicodeData}.

(** X24. An upsert returns an outcome only for a payload it can store:
    whenever it returns, the key was computed, the [work_orders] table
    exists, and the clock text, the creator id, the six payload columns
    and the JSON text were all values sqlite3 binds.  A list or a
    mapping under one of the six columns therefore never reaches the
    table. *)
Theorem upsert_returns_only_if_storable (conn conn' : connection) (uid : Z)
    (args : dict) (now : pystr) (b : bool) :
  upsert_work_order conn uid args now = Return (b, conn') ->
  storable uid args now = true
  /\ (exists key, make_work_order_key args = Return key)
  /\ (exists rows, work_orders (file conn) = Some rows)
  /\ (forall f, In f payload_columns ->
                iterable (get args f) = true -> is_text (get args f) = true).
Proof.
  unfold upsert_work_order.
  destruct (make_work_order_key args) as [key|]; [|discriminate].
  cbn [bind].
  destruct (prepare_insert conn) as [[rows us]|] eqn:P; [|discriminate].
  cbn [bind]. unfold storable, payload_columns. cbn [forallb].
  destruct (bind_text key); [|discriminate]. cbn [bind].
  destruct (bind_text now); [|discriminate]. cbn [bind].
  destruct (bind_int uid); [|discriminate]. cbn [bind].
  destruct (bind_param (get args (txt "asset"))) eqn:B1; [|discriminate].
  cbn [bind].
  destruct (bind_param (get args (txt "incident_type"))) eqn:B2;
    [|discriminate].
  cbn [bind].
  destruct (bind_param (get args (txt "severity"))) eqn:B3; [|discriminate].
  cbn [bind].
  destruct (bind_param (get args (txt "location"))) eqn:B4; [|discriminate].
  cbn [bind].
  destruct (bind_param (get args (txt "timestamp"))) eqn:B5; [|discriminate].
  cbn [bind].
  destruct (bind_param (get args (txt "summary"))) eqn:B6; [|discriminate].
  cbn [bind].
  destruct (bind_text (dumps (JDict args))); [|discriminate].
  intros _. cbn [returns andb].
  split; [reflexivity|]. split; [now exists key|].
  split; [exists rows; now apply prepare_rows with us|].
  intros f Hf. cbn [In] in Hf.
  destruct Hf as [<-|[<-|[<-|[<-|[<-|[<-|[]]]]]]];
    match goal with
    | B : bind_param ?v = Return _ |- iterable ?v = true -> _ =>
        destruct v; try discriminate; reflexivity
    end.
Qed.

(** X25. Opening the file again clears nothing: for every connection,
    the connection [db_connect] and [db_init] give on its file shows the
    same work orders and the same users, enforces foreign keys, and
    opening it once more gives the same connection again. *)
Theorem reopening_keeps_the_records (conn : connection) :
  stored (reopened conn) = stored conn
  /\ table_or_empty (users (file (reopened conn)))
     = table_or_empty (users (file conn))
  /\ (forall key, records_for key (reopened conn) = records_for key conn)
  /\ foreign_keys (reopened conn) = true
  /\ reopened (reopened conn) = reopened conn.
Proof.
  unfold reopened, stored, records_for, db_init, db_connect.
  cbn [file foreign_keys users work_orders work_orders_seq table_or_empty].
  repeat split.
Qed.

(** X26. The entry a run adds is invisible to the e-mails: for every
    payload, setting [_tool_name] changes neither e-mail, so the
    e-mails of a run's result are those of the last captured ToolCall's
    arguments. *)
Theorem emails_ignore_tool_name (args : dict) (v : json) :
  build_ops_email (dict_set args (txt "_tool_name") v) = build_ops_email args
  /\ build_maint_email (dict_set args (txt "_tool_name") v)
     = build_maint_email args
  /\ (forall r d,
        run_agent_stream_get_tool_args r = Return d ->
        exists c,
          last_call (captured (iter_lines r)) = Some c
          /\ build_ops_email d = build_ops_email (call_args c)
          /\ build_maint_email d = build_maint_email (call_args c)).
Proof.
  assert (E : forall a w,
            build_ops_email (dict_set a (txt "_tool_name") w)
            = build_ops_email a
            /\ build_maint_email (dict_set a (txt "_tool_name") w)
               = build_maint_email a).
  { intros a w. unfold build_ops_email, build_maint_email. cbv zeta.
    rewrite !get_default_set_other
      by (apply email_field_not_tool_name; cbn [email_fields In]; tauto).
    split; reflexivity. }
  split; [apply E|]. split; [apply E|].
  intros r d H. destruct (run_returns_inv _ H) as (_ & c & L & _ & _ & ->).
  exists c. split; [exact L|]. apply E.
Qed.

End Together.

Lemma upsert_returns_only_if_storable_bin7 :
  storable 1 bin7_args noon = true
  /\ (exists key, make_work_order_key bin7_args = Return key).
Proof.
  destruct (@upsert_returns_only_if_storable ascii_tables ready_store stocked
              1 bin7_args noon Inserted stocked_inserted) as (S & K & _).
  split; [exact S|exact K].
Defined.
